(** * dabug: a shallow embedding of the execution-tracing helper

    The development follows the most recent iteration of the package
    (the [Dabugger] type with [New], [Stack] and per-instance state).
    Strings are Go strings, that is byte sequences: [String.length] is
    Go's [len].  Instances live in a heap and are referred to by
    pointers, because the package keeps a process-wide default instance
    next to the explicitly constructed ones and one method reads the
    default instance while working on its receiver.

    Calls run one after the other: the mutex around the pending lines
    has no counterpart here.  The call site that getSource resolves and
    the text that debug.Stack returns come from the Go runtime and are
    inputs of the operations.  [fmt] and [unicode/utf8] are modelled the
    way their documentation describes them. *)

From Stdlib Require Import ZArith String Ascii List Bool Lia DecimalString.
From stdpp Require Import base option list strings.

Local Open Scope Z_scope.
#[local] Arguments String.append !s1 s2 : simpl nomatch.

(** ** Strings and bytes *)

Definition nl : string := String (ascii_of_nat 10) EmptyString.
Definition space : ascii := ascii_of_nat 32.

Fixpoint spaces (n : nat) : string :=
  match n with
  | O => EmptyString
  | S k => String space (spaces k)
  end.

Definition byte (c : ascii) : Z := Z.of_nat (nat_of_ascii c).

(** ** unicode/utf8: counting runes

    [fmt] measures widths in runes, not in bytes.  [first] gives, for a
    leading byte, the ranges its continuation bytes must fall in (the
    package's [first] and [acceptRanges] tables); ASCII and invalid leading
    bytes have none and count as one rune of one byte. *)

Definition locb : Z := 128.
Definition hicb : Z := 191.

Definition first (b : Z) : list (Z * Z) :=
  if b <? 194 then []
  else if b <=? 223 then [(locb, hicb)]
  else if b =? 224 then [(160, hicb); (locb, hicb)]
  else if b =? 237 then [(locb, 159); (locb, hicb)]
  else if b <=? 239 then [(locb, hicb); (locb, hicb)]
  else if b =? 240 then [(144, hicb); (locb, hicb); (locb, hicb)]
  else if b <=? 243 then [(locb, hicb); (locb, hicb); (locb, hicb)]
  else if b =? 244 then [(locb, 143); (locb, hicb); (locb, hicb)]
  else [].

Fixpoint accepts (rs : list (Z * Z)) (s : string) : bool :=
  match rs with
  | [] => true
  | (lo, hi) :: rs' =>
      match s with
      | EmptyString => false
      | String c s' => (lo <=? byte c) && (byte c <=? hi) && accepts rs' s'
      end
  end.

(** Number of bytes of the rune that starts with [c] and continues in
    [rest]; a short or ill-formed sequence is one byte wide. *)
Definition runeWidth (c : ascii) (rest : string) : nat :=
  let rs := first (byte c) in
  if accepts rs rest then S (length rs) else 1%nat.

(** [countFrom skip s]: runes of [s] once [skip] more bytes of the rune in
    progress have been passed over. *)
Fixpoint countFrom (skip : nat) (s : string) : nat :=
  match s with
  | EmptyString => O
  | String c rest =>
      match skip with
      | S k => countFrom k rest
      | O => S (countFrom (runeWidth c rest - 1) rest)
      end
  end.

Definition RuneCountInString (s : string) : nat := countFrom 0 s.

(** ** fmt: the fragment of Sprintf the package uses

    A format string is kept in parsed form.  ["%s"] is [VerbS false None],
    ["%-12s"] is [VerbS true (Some 12)], ["%d"] is [VerbD], everything else
    is literal text.  The format that [Flush] builds with
    [Sprintf("%%-%ds", n)] is the parsed form of ["%-<n>s"]. *)

Inductive arg :=
  | AString (s : string)
  | AInt (n : Z).

Inductive directive :=
  | Lit (s : string)
  | VerbS (minus : bool) (wid : option Z)
  | VerbD.

Definition format := list directive.

Definition itoa (n : Z) : string := NilZero.string_of_int (Z.to_int n).

Definition padString (minus : bool) (wid : option Z) (s : string) : string :=
  match wid with
  | None => s
  | Some w =>
      let n := Z.to_nat (w - Z.of_nat (RuneCountInString s)) in
      if minus then s +:+ spaces n else spaces n +:+ s
  end.

Definition typedArg (a : arg) : string :=
  match a with
  | AString s => "string=" +:+ s
  | AInt n => "int=" +:+ itoa n
  end.

Fixpoint extraArgs (args : list arg) : string :=
  match args with
  | [] => ""
  | [a] => typedArg a
  | a :: rest => typedArg a +:+ ", " +:+ extraArgs rest
  end.

(** Operand type and verb mismatches, missing and extra operands print the
    way the package documents them; the package itself never triggers
    them. *)
Fixpoint Sprintf (f : format) (args : list arg) : string :=
  match f with
  | [] =>
      match args with
      | [] => ""
      | _ => "%!(EXTRA " +:+ extraArgs args +:+ ")"
      end
  | Lit s :: f' => s +:+ Sprintf f' args
  | VerbS minus wid :: f' =>
      match args with
      | [] => "%!s(MISSING)" +:+ Sprintf f' []
      | AString s :: args' => padString minus wid s +:+ Sprintf f' args'
      | AInt n :: args' => "%!s(int=" +:+ itoa n +:+ ")" +:+ Sprintf f' args'
      end
  | VerbD :: f' =>
      match args with
      | [] => "%!d(MISSING)" +:+ Sprintf f' []
      | AInt n :: args' => itoa n +:+ Sprintf f' args'
      | AString s :: args' => "%!d(string=" +:+ s +:+ ")" +:+ Sprintf f' args'
      end
  end.

(** strings.Split(s, "\n"): always at least one field. *)
Fixpoint Split_nl (s : string) : list string :=
  match s with
  | EmptyString => [EmptyString]
  | String c s' =>
      if Ascii.eqb c (ascii_of_nat 10) then EmptyString :: Split_nl s'
      else
        match Split_nl s' with
        | h :: t => String c h :: t
        | [] => [String c EmptyString]
        end
  end.


(** ** Data model *)

Record source := mkSource {
  File : string;
  Function : string;
  Line : Z
}.

(** source.String() *)
Definition source_String (s : source) : string :=
  Sprintf [VerbS false None; Lit ":"; VerbD] [AString (File s); AInt (Line s)].

Record dcontext := mkContext {
  key : string;
  value : string
}.

Record line := mkLine {
  msg : string;
  src : source;
  prefix : string
}.

(** An io.Writer: the nil interface value, standard output, or a sink the
    caller supplied. *)
Inductive io_Writer :=
  | NilWriter
  | Stdout
  | Sink (id : nat).

Record Dabugger := mkDabugger {
  lines : list line;
  contexts : list dcontext;
  writer : io_Writer;
  linePrefix : string;
  autoFlush : bool;
  stackSkips : Z
}.

Definition set_lines (d : Dabugger) (ls : list line) : Dabugger :=
  mkDabugger ls (contexts d) (writer d) (linePrefix d) (autoFlush d) (stackSkips d).
Definition set_contexts (d : Dabugger) (cs : list dcontext) : Dabugger :=
  mkDabugger (lines d) cs (writer d) (linePrefix d) (autoFlush d) (stackSkips d).
Definition set_writer (d : Dabugger) (w : io_Writer) : Dabugger :=
  mkDabugger (lines d) (contexts d) w (linePrefix d) (autoFlush d) (stackSkips d).
Definition set_linePrefix (d : Dabugger) (p : string) : Dabugger :=
  mkDabugger (lines d) (contexts d) (writer d) p (autoFlush d) (stackSkips d).
Definition set_autoFlush (d : Dabugger) (b : bool) : Dabugger :=
  mkDabugger (lines d) (contexts d) (writer d) (linePrefix d) b (stackSkips d).
Definition set_stackSkips (d : Dabugger) (n : Z) : Dabugger :=
  mkDabugger (lines d) (contexts d) (writer d) (linePrefix d) (autoFlush d) n.

(** A pointer to a [Dabugger]: [None] is nil. *)
Definition ptr := option nat.

(** The state of the process: the instances allocated so far, the package
    variable [defDabugger], and every write made to a writer, oldest
    first. *)
Record World := mkWorld {
  heap : list Dabugger;
  defDabugger : ptr;
  out : list (io_Writer * string)
}.

(** ** Computations that may panic *)

Inductive result (A : Type) :=
  | Ok (a : A)
  | Panic (reason : string).
Arguments Ok {A} a.
Arguments Panic {A} reason.

Definition M (A : Type) := World -> result (A * World).

Definition ret {A} (a : A) : M A := fun w => Ok (a, w).
Definition bind {A B} (m : M A) (k : A -> M B) : M B :=
  fun w => match m w with
           | Ok (a, w') => k a w'
           | Panic r => Panic r
           end.
Definition panic {A} (r : string) : M A := fun _ => Panic r.

Notation "'let*' x ':=' c 'in' k" := (bind c (fun x => k))
  (at level 10, x name, c at level 100, k at level 200).
Notation "c ';;' k" := (bind c (fun _ => k))
  (at level 100, k at level 200, right associativity).

Definition nilDeref : string := "invalid memory address or nil pointer dereference".
Definition sliceBounds : string := "slice bounds out of range".

Definition load (p : ptr) : M Dabugger :=
  fun w => match p with
           | None => Panic nilDeref
           | Some a => match heap w !! a with
                       | Some d => Ok (d, w)
                       | None => Panic nilDeref
                       end
           end.

Definition modify (p : ptr) (f : Dabugger -> Dabugger) : M unit :=
  let* d := load p in
  fun w => match p with
           | Some a => Ok (tt, mkWorld (<[a := f d]> (heap w)) (defDabugger w) (out w))
           | None => Panic nilDeref
           end.

Definition alloc (d : Dabugger) : M ptr :=
  fun w => Ok (Some (length (heap w)), mkWorld (heap w ++ [d]) (defDabugger w) (out w)).

Definition getDef : M ptr := fun w => Ok (defDabugger w, w).
Definition setDef (p : ptr) : M unit :=
  fun w => Ok (tt, mkWorld (heap w) p (out w)).

(** One call of the writer's Write; the error it may return is dropped by
    every caller in the package. *)
Definition Fprint (wr : io_Writer) (s : string) : M unit :=
  fun w => match wr with
           | NilWriter => Panic nilDeref
           | _ => Ok (tt, mkWorld (heap w) (defDabugger w) (out w ++ [(wr, s)]))
           end.

(** ** The package *)

Definition sectionBeg : string := "-----".
Definition sectionEnd : string := "=====".

(** The zero value [&Dabugger{}] the package variable starts with. *)
Definition zeroDabugger : Dabugger := mkDabugger [] [] NilWriter "" false 0.

Definition startWorld : World := mkWorld [zeroDabugger] (Some 0%nat) [].

Definition New : M ptr :=
  let* def := getDef in
  let* prefix :=
    match def with
    | None => ret EmptyString
    | Some _ =>
        let* dd := load def in
        ret (if String.eqb (linePrefix dd) "" then EmptyString else linePrefix dd)
    end in
  alloc (mkDabugger [] [] Stdout prefix false 4).

Definition init : M unit :=
  let* p := New in
  setDef p ;;
  let* def := getDef in
  modify def (fun d => set_autoFlush d true) ;;
  modify def (fun d => set_linePrefix d "DABUG: ") ;;
  modify def (fun d => set_stackSkips d (stackSkips d + 1)).

Definition Writer (d : ptr) (wr : io_Writer) : M unit :=
  modify d (fun dd => set_writer dd wr).

Definition LinePrefix (d : ptr) (p : string) : M unit :=
  modify d (fun dd => set_linePrefix dd p).

Definition AddContext (d : ptr) (k v : string) : M unit :=
  modify d (fun dd => set_contexts dd (contexts dd ++ [mkContext k v])).

Definition RemoveContext (d : ptr) (k : string) : M unit :=
  let* dd := load d in
  let newContexts :=
    fold_left (fun acc c => if negb (String.eqb (key c) k) then acc ++ [c] else acc)
              (contexts dd) [] in
  modify d (fun dd => set_contexts dd newContexts).

Definition RemoveAllContext (d : ptr) : M unit :=
  modify d (fun dd => set_contexts dd []).

(** d.contexts[:len(d.contexts)-1] *)
Definition RemoveTopContext (d : ptr) : M unit :=
  let* dd := load d in
  let hi := Z.of_nat (length (contexts dd)) - 1 in
  if hi <? 0 then panic sliceBounds
  else modify d (fun dd => set_contexts dd (take (Z.to_nat hi) (contexts dd))).

Definition clearLines (d : ptr) : M unit :=
  modify d (fun dd => set_lines dd []).

Definition lineStr (lFmt : format) (l : line) : string :=
  if Nat.eqb (String.length (msg l)) 0
  then Sprintf lFmt [AString (prefix l)]
  else Sprintf (lFmt ++ [Lit "- "; VerbS false None]) [AString (prefix l); AString (msg l)].

Definition Flush (d : ptr) : M unit :=
  let* dd := load d in
  if Nat.eqb (length (lines dd)) 0 then ret tt
  else
    let maxPrefixLen :=
      fold_left (fun m l => Z.max m (Z.of_nat (String.length (prefix l)))) (lines dd) (-1) in
    let sb := EmptyString in
    let sb := sb +:+ Sprintf [VerbS false None; VerbS false None; Lit nl]
                             [AString (linePrefix dd); AString sectionBeg] in
    let lFmt := [VerbS true (Some maxPrefixLen)] in
    let sb := fold_left (fun sb l => sb +:+ (lineStr lFmt l +:+ nl)) (lines dd) sb in
    let sb := sb +:+ Sprintf [VerbS false None; VerbS false None; Lit nl]
                             [AString (linePrefix dd); AString sectionEnd] in
    Fprint (writer dd) sb ;;
    clearLines d.

Definition flushLine (d : ptr) (l : line) : M unit :=
  let* dd := load d in
  let m := lineStr [VerbS false None] l in
  Fprint (writer dd) (Sprintf [VerbS false None; Lit nl] [AString m]).

(** The loop of genPrefix over d.contexts[i], i = 0, 1, ... *)
Fixpoint genPrefix_loop (i : Z) (cs : list dcontext) (c : string) : string :=
  match cs with
  | [] => c
  | context :: rest =>
      let kv := Sprintf [VerbS false None; Lit ":"; VerbS false None]
                        [AString (key context); AString (value context)] in
      let c := if 0 <? i then c +:+ ", " else c in
      genPrefix_loop (i + 1) rest (c +:+ kv)
  end.

Definition genPrefix (d : ptr) (l : line) : M line :=
  let* dd := load d in
  let c := EmptyString in
  let c := if 0 <? Z.of_nat (length (contexts dd)) then c +:+ " (" else c in
  let c := genPrefix_loop 0 (contexts dd) c in
  let c := if 0 <? Z.of_nat (length (contexts dd)) then c +:+ ")" else c in
  let p := Sprintf [VerbS false None; VerbS false None; VerbS false None; Lit " "]
                   [AString (linePrefix dd); AString (source_String (src l)); AString c] in
  ret (mkLine (msg l) (src l) p).

Definition appendLine (d : ptr) (l : line) : M unit :=
  let* l := genPrefix d l in
  let* dd := load d in
  if autoFlush dd then flushLine d l
  else modify d (fun dd => set_lines dd (lines dd ++ [l])).

(** getSource walks the run-time call stack; the call site it resolves is
    an input [site] of every operation that logs. *)
Definition getSource (d : ptr) (site : source) : M source :=
  let* _ := load d in ret site.

Definition appendEmpty (d : ptr) (site : source) : M unit :=
  let* s := getSource d site in
  appendLine d (mkLine EmptyString s EmptyString).

Definition appendMsg (d : ptr) (site : source) (m : string) : M unit :=
  let* s := getSource d site in
  appendLine d (mkLine m s EmptyString).

Definition Msg (d : ptr) (site : source) (f : format) (v : list arg) : M unit :=
  appendMsg d site (Sprintf f v).

Definition Here (d : ptr) (site : source) : M unit :=
  appendEmpty d site.

Definition AutoFlush (d : ptr) (flush : bool) : M unit :=
  modify d (fun dd => set_autoFlush dd flush) ;;
  let* def := getDef in
  let* dd := load def in
  if 0 <? Z.of_nat (length (lines dd)) then Flush d else ret tt.

(** The loop of Stack over the lines of the trace; [trace] is the text
    debug.Stack() returned. *)
Fixpoint Stack_loop (d : ptr) (site : source) (num : Z) (i : Z)
    (stackLines : list string) : M unit :=
  match stackLines with
  | [] => ret tt
  | ln :: rest =>
      appendMsg d site ln ;;
      if (0 <? num) && (num <=? i + 1) then ret tt
      else Stack_loop d site num (i + 1) rest
  end.

Definition Stack (d : ptr) (site : source) (trace : string) (num : Z) : M unit :=
  Stack_loop d site num 0 (Split_nl trace).

(** The package-level functions forward to the default instance. *)
Module Default.
Definition on {A} (f : ptr -> M A) : M A := let* def := getDef in f def.
Definition Stack site trace num := on (fun d => Stack d site trace num).
Definition Writer wr := on (fun d => Writer d wr).
Definition LinePrefix p := on (fun d => LinePrefix d p).
Definition AutoFlush flush := on (fun d => AutoFlush d flush).
Definition Msg site f v := on (fun d => Msg d site f v).
Definition Here site := on (fun d => Here d site).
Definition AddContext k v := on (fun d => AddContext d k v).
Definition RemoveContext k := on (fun d => RemoveContext d k).
Definition RemoveAllContext := on RemoveAllContext.
Definition RemoveTopContext := on RemoveTopContext.
Definition Flush := on Flush.
End Default.


(** ** Reference renderings

    What the output is meant to look like, written without loops and
    string builders; the theorems below relate the package to them. *)

Definition kvString (c : dcontext) : string := key c +:+ ":" +:+ value c.

Definition contextString (cs : list dcontext) : string :=
  match cs with
  | [] => ""
  | _ => " (" +:+ String.concat ", " (map kvString cs) +:+ ")"
  end.

Definition renderPrefix (P : string) (site : source) (cs : list dcontext) : string :=
  P +:+ File site +:+ ":" +:+ itoa (Line site) +:+ contextString cs +:+ " ".

Definition maxWidth (ls : list line) : nat :=
  max_list (map (fun l => String.length (prefix l)) ls).

Definition padRight (W : nat) (s : string) : string :=
  s +:+ spaces (W - RuneCountInString s).

(** What follows the prefix of a line: nothing for a bare marker. *)
Definition suffixOf (m : string) : string :=
  if String.eqb m "" then "" else "- " +:+ m.

Definition renderLine (W : nat) (l : line) : string :=
  padRight W (prefix l) +:+ suffixOf (msg l).

Definition segments (P : string) (ls : list line) : list string :=
  (P +:+ sectionBeg) :: map (renderLine (maxWidth ls)) ls ++ [P +:+ sectionEnd].

Definition flatten (l : list string) : string := foldr String.append "" l.

Definition block (P : string) (ls : list line) : string :=
  flatten (map (fun seg => seg +:+ nl) (segments P ls)).

(** Handing messages one by one to [appendMsg]. *)
Fixpoint emitAll (d : ptr) (site : source) (ms : list string) : M unit :=
  match ms with
  | [] => ret tt
  | m :: rest => appendMsg d site m ;; emitAll d site rest
  end.

(** World updates used to state results. *)
Definition putInstance (a : nat) (d : Dabugger) (w : World) : World :=
  mkWorld (<[a := d]> (heap w)) (defDabugger w) (out w).

Definition written (wr : io_Writer) (s : string) (w : World) : World :=
  mkWorld (heap w) (defDabugger w) (out w ++ [(wr, s)]).

(** Configuration calls that may come between an append and a flush. *)
Inductive configCall :=
  | CallLinePrefix (p : string)
  | CallWriter (wr : io_Writer)
  | CallAddContext (k v : string)
  | CallRemoveContext (k : string)
  | CallRemoveAllContext
  | CallRemoveTopContext.

Definition runCall (d : ptr) (c : configCall) : M unit :=
  match c with
  | CallLinePrefix p => LinePrefix d p
  | CallWriter wr => Writer d wr
  | CallAddContext k v => AddContext d k v
  | CallRemoveContext k => RemoveContext d k
  | CallRemoveAllContext => RemoveAllContext d
  | CallRemoveTopContext => RemoveTopContext d
  end.

Fixpoint runCalls (d : ptr) (cs : list configCall) : M unit :=
  match cs with
  | [] => ret tt
  | c :: rest => runCall d c ;; runCalls d rest
  end.

(** On ASCII text runes and bytes coincide. *)
Definition isASCII (s : string) : Prop :=
  forall i c, String.get i s = Some c -> byte c < 128.


Definition keeps (k : string) (c : dcontext) : bool := negb (String.eqb (key c) k).


Fixpoint containsNl (s : string) : bool :=
  match s with
  | EmptyString => false
  | String c s' => Ascii.eqb c (ascii_of_nat 10) || containsNl s'
  end.



(** ** Earlier iterations

    The repository keeps two older copies of the package.  Only the parts
    in which they differ from the current one are recorded here. *)

Module Earlier.

(** The first copy has a single package-wide [logger]; removal by key
    and removal of all contexts are still empty functions there. *)
Record logger := mkLogger {
  lines : list line;
  contexts : list dcontext
}.

Definition AddContext (l : logger) (k v : string) : logger :=
  mkLogger (lines l) (contexts l ++ [mkContext k v]).

Definition RemoveContext (l : logger) (k : string) : logger := l.

Definition RemoveAllContext (l : logger) : logger := l.

Definition removeTopContext (l : logger) : result logger :=
  let hi := Z.of_nat (length (contexts l)) - 1 in
  if hi <? 0 then Panic sliceBounds
  else Ok (mkLogger (lines l) (take (Z.to_nat hi) (contexts l))).

(** The second copy has the [Dabugger] type; its [New] switches
    auto-flush on and takes the prefix of the default instance whenever
    the package variable is not nil, which it never is. *)
Definition New : M ptr :=
  let* def := getDef in
  let* prefix :=
    match def with
    | None => ret "DABUG: "
    | Some _ => let* dd := load def in ret (linePrefix dd)
    end in
  alloc (mkDabugger [] [] Stdout prefix true 4).

Definition init : M unit :=
  let* p := New in
  setDef p ;;
  let* def := getDef in
  modify def (fun d => set_stackSkips d (stackSkips d + 1)).

End Earlier.

(** ** The rest of the package *)

(** Objs.  The verb "%#v" prints a value in Go syntax; that printer is the
    parameter [goSyntax], and the text it gives is passed through as it
    is. *)
Fixpoint Objs_loop {T} (goSyntax : T -> string) (i : Z) (things : list T)
    (msgs : list string) : list string :=
  match things with
  | [] => msgs
  | t :: rest =>
      let m := Sprintf [Lit "["; VerbD; Lit "] "; VerbS false None]
                       [AInt i; AString (goSyntax t)] in
      Objs_loop goSyntax (i + 1) rest (msgs ++ [m])
  end.

(** strings.Join *)
Definition Join (elems : list string) (sep : string) : string := String.concat sep elems.

Definition Objs {T} (goSyntax : T -> string) (d : ptr) (site : source)
    (things : list T) : M unit :=
  appendMsg d site (Join (Objs_loop goSyntax 0 things []) ", ").

(** A context.Context, as far as values go: the pairs added by WithValue,
    the most recent first.  The key of the package has a type of its own,
    so no other package can store under it. *)
Inductive contextKey :=
  | dabuggerContextKey
  | foreignKey (n : nat).

Inductive contextValue :=
  | DabuggerValue (d : ptr)
  | foreignValue (n : nat).

Definition goContext := list (contextKey * contextValue).

Definition contextKey_eqb (a b : contextKey) : bool :=
  match a, b with
  | dabuggerContextKey, dabuggerContextKey => true
  | foreignKey n, foreignKey m => Nat.eqb n m
  | _, _ => false
  end.

Definition WithValue (ctx : goContext) (k : contextKey) (v : contextValue) : goContext :=
  (k, v) :: ctx.

Fixpoint Value (ctx : goContext) (k : contextKey) : option contextValue :=
  match ctx with
  | [] => None
  | (k', v) :: parent => if contextKey_eqb k k' then Some v else Value parent k
  end.

Definition StoreInContext (d : ptr) (ctx : goContext) : goContext :=
  WithValue ctx dabuggerContextKey (DabuggerValue d).

(** ctx.Value(dabuggerContextKey) asserted to be a pointer to a Dabugger;
    a failed assertion gives nil and false. *)
Definition FromContext (ctx : goContext) : ptr * bool :=
  match Value ctx dabuggerContextKey with
  | Some (DabuggerValue d) => (d, true)
  | _ => (None, false)
  end.

(** strings.TrimPrefix *)
Fixpoint stripPrefix (p s : string) : option string :=
  match p with
  | EmptyString => Some s
  | String a p' =>
      match s with
      | EmptyString => None
      | String b s' => if Ascii.eqb a b then stripPrefix p' s' else None
      end
  end.

Definition TrimPrefix (s p : string) : string :=
  match stripPrefix p s with
  | Some rest => rest
  | None => s
  end.

(** A runtime.Frame, the fields getSource reads. *)
Record Frame := mkFrame {
  frFile : string;
  frFunction : string;
  frLine : Z
}.

(** The end of getSource: from the frame [f] of the caller and
    [dir] = filepath.Dir(fpath) to the source that is stored with a line. *)
Definition trimmedSource (f : Frame) (dir : string) : source :=
  let file := TrimPrefix (frFile f) dir in
  let file := TrimPrefix file "/" in
  mkSource file (frFunction f) (frLine f).

(** Every method of [Dabugger] that works on the instance, as a value. *)
Inductive method :=
  | MStack (site : source) (trace : string) (num : Z)
  | MWriter (wr : io_Writer)
  | MLinePrefix (p : string)
  | MAutoFlush (flush : bool)
  | MMsg (site : source) (f : format) (v : list arg)
  | MHere (site : source)
  | MAddContext (k v : string)
  | MRemoveContext (k : string)
  | MRemoveAllContext
  | MRemoveTopContext
  | MFlush.

Definition invoke (d : ptr) (m : method) : M unit :=
  match m with
  | MStack site trace num => Stack d site trace num
  | MWriter wr => Writer d wr
  | MLinePrefix p => LinePrefix d p
  | MAutoFlush flush => AutoFlush d flush
  | MMsg site f v => Msg d site f v
  | MHere site => Here d site
  | MAddContext k v => AddContext d k v
  | MRemoveContext k => RemoveContext d k
  | MRemoveAllContext => RemoveAllContext d
  | MRemoveTopContext => RemoveTopContext d
  | MFlush => Flush d
  end.

(** A step of a client program: a method call on some instance, or New. *)
Inductive call :=
  | On (d : ptr) (m : method)
  | CallNew.

Definition step (c : call) : M unit :=
  match c with
  | On d m => invoke d m
  | CallNew => let* _ := New in ret tt
  end.

Fixpoint run (cs : list call) : M unit :=
  match cs with
  | [] => ret tt
  | c :: rest => step c ;; run rest
  end.

(** The world once the package is initialised. *)
Definition readyWorld : World :=
  mkWorld [zeroDabugger; mkDabugger [] [] Stdout "DABUG: " true 5] (Some 1%nat) [].

(** Text that reached a writer: its writes, one after the other. *)
Definition io_Writer_eqb (a b : io_Writer) : bool :=
  match a, b with
  | NilWriter, NilWriter => true
  | Stdout, Stdout => true
  | Sink n, Sink m => Nat.eqb n m
  | _, _ => false
  end.

Definition textOf (wr : io_Writer) (o : list (io_Writer * string)) : string :=
  flatten (map snd (List.filter (fun e => io_Writer_eqb (fst e) wr) o)).

(** The pending line made from a message at a call site. *)
Definition lineOf (dd : Dabugger) (site : source) (m : string) : line :=
  mkLine m site (renderPrefix (linePrefix dd) site (contexts dd)).

(** On the default instance nothing is pending while auto-flush is on. *)
Definition defaultDrained (w : World) : Prop :=
  exists a dd,
    defDabugger w = Some a /\ heap w !! a = Some dd /\
    (autoFlush dd = true -> lines dd = []).

(** Appending several lines in a row. *)
Fixpoint appendAll (d : ptr) (ls : list line) : M unit :=
  match ls with
  | [] => ret tt
  | l :: rest => appendLine d l ;; appendAll d rest
  end.

(** A line with the prefix [appendLine] gives it on instance [dd]. *)
Definition stamp (dd : Dabugger) (l : line) : line :=
  mkLine (msg l) (src l) (renderPrefix (linePrefix dd) (src l) (contexts dd)).

Definition contextClean (c : dcontext) : Prop :=
  containsNl (key c) = false /\ containsNl (value c) = false.

(** * Properties *)

(** ** Strings *)

Lemma append_nil_r (s : string) : s +:+ "" = s.
Proof. induction s as [|c s IH]; simpl; [reflexivity | now rewrite IH]. Qed.

Lemma append_assoc (s t u : string) : (s +:+ t) +:+ u = s +:+ (t +:+ u).
Proof. induction s as [|c s IH]; simpl; [reflexivity | now rewrite IH]. Qed.

Lemma length_append (s t : string) :
  String.length (s +:+ t) = (String.length s + String.length t)%nat.
Proof. induction s as [|c s IH]; simpl; [reflexivity | now rewrite IH]. Qed.

Lemma length_spaces (n : nat) : String.length (spaces n) = n.
Proof. induction n as [|n IH]; simpl; [reflexivity | now rewrite IH]. Qed.

(** ** Rune counting *)

Lemma first_ranges (b : Z) : Forall (fun r => 128 <= fst r) (first b).
Proof.
  unfold first, locb.
  repeat match goal with
         | |- context [if ?c then _ else _] => destruct c
         end;
    repeat constructor; simpl; lia.
Qed.

Lemma byte_space : byte space = 32.
Proof. reflexivity. Qed.

Lemma accepts_spaces (rs : list (Z * Z)) (s : string) (k : nat) :
  Forall (fun r => 128 <= fst r) rs ->
  accepts rs (s +:+ spaces k) = accepts rs s.
Proof.
  intros Hrs. revert s.
  induction Hrs as [|[lo hi] rs Hlo _ IH]; intros s; [reflexivity|].
  destruct s as [|c s]; simpl.
  - destruct k as [|k]; [reflexivity|]. simpl in *.
    replace (lo <=? byte space) with false; [reflexivity|].
    symmetry. apply Z.leb_gt. rewrite byte_space. lia.
  - now rewrite IH.
Qed.

Lemma accepts_length (rs : list (Z * Z)) (s : string) :
  accepts rs s = true -> (length rs <= String.length s)%nat.
Proof.
  revert s. induction rs as [|[lo hi] rs IH]; intros s H; simpl in *; [lia|].
  destruct s as [|c s]; [discriminate|].
  apply andb_prop in H as [_ H]. apply IH in H. simpl. lia.
Qed.

Lemma runeWidth_spaces (c : ascii) (s : string) (k : nat) :
  runeWidth c (s +:+ spaces k) = runeWidth c s.
Proof. unfold runeWidth. now rewrite accepts_spaces by apply first_ranges. Qed.

Lemma runeWidth_bound (c : ascii) (s : string) :
  (runeWidth c s - 1 <= String.length s)%nat.
Proof.
  unfold runeWidth. destruct (accepts _ s) eqn:E; simpl; [|lia].
  apply accepts_length in E. lia.
Qed.

Lemma countFrom_only_spaces (k : nat) : countFrom 0 (spaces k) = k.
Proof. induction k as [|k IH]; simpl; [reflexivity | now rewrite IH]. Qed.

Lemma countFrom_spaces (s : string) (skip k : nat) :
  (skip <= String.length s)%nat ->
  countFrom skip (s +:+ spaces k) = (countFrom skip s + k)%nat.
Proof.
  revert skip. induction s as [|c s IH]; intros skip Hs; simpl in *.
  - assert (skip = 0%nat) as -> by lia. apply countFrom_only_spaces.
  - destruct skip as [|j].
    + rewrite runeWidth_spaces, IH by apply runeWidth_bound. reflexivity.
    + apply IH. lia.
Qed.

Lemma countFrom_le (s : string) (skip : nat) :
  (countFrom skip s <= String.length s)%nat.
Proof.
  revert skip. induction s as [|c s IH]; intros skip; simpl; [lia|].
  destruct skip as [|j].
  - specialize (IH (runeWidth c s - 1)%nat). lia.
  - specialize (IH j). lia.
Qed.

Lemma RuneCount_le_len (s : string) : (RuneCountInString s <= String.length s)%nat.
Proof. apply countFrom_le. Qed.

Lemma RuneCount_spaces (s : string) (k : nat) :
  RuneCountInString (s +:+ spaces k) = (RuneCountInString s + k)%nat.
Proof. apply countFrom_spaces. lia. Qed.


Lemma RuneCount_ascii (s : string) :
  isASCII s -> RuneCountInString s = String.length s.
Proof.
  unfold RuneCountInString.
  induction s as [|c s IH]; intros H; simpl; [reflexivity|].
  assert (Hc : byte c < 128) by (apply (H 0%nat); reflexivity).
  unfold runeWidth, first.
  destruct (byte c <? 194) eqn:E; [|apply Z.ltb_ge in E; lia].
  simpl. rewrite IH; [reflexivity|].
  intros i c' Hi. apply (H (S i)). exact Hi.
Qed.

(** ** Heap access *)

Lemma load_Some (w : World) (a : nat) (d : Dabugger) :
  heap w !! a = Some d -> load (Some a) w = Ok (d, w).
Proof. intros H. unfold load. now rewrite H. Qed.

Lemma modify_Some (w : World) (a : nat) (d : Dabugger) (f : Dabugger -> Dabugger) :
  heap w !! a = Some d -> modify (Some a) f w = Ok (tt, putInstance a (f d) w).
Proof. intros H. unfold modify, bind. now rewrite (load_Some _ _ _ H). Qed.

Lemma lookup_putInstance (w : World) (a : nat) (d d' : Dabugger) :
  heap w !! a = Some d -> heap (putInstance a d' w) !! a = Some d'.
Proof.
  intros H. unfold putInstance; simpl.
  apply list_lookup_insert_eq. eapply lookup_lt_Some, H.
Qed.

Lemma lookup_putInstance_ne (w : World) (a b : nat) (d' : Dabugger) :
  a <> b -> heap (putInstance a d' w) !! b = heap w !! b.
Proof. intros H. unfold putInstance; simpl. now apply list_lookup_insert_ne. Qed.

Lemma putInstance_twice (w : World) (a : nat) (d1 d2 : Dabugger) :
  putInstance a d2 (putInstance a d1 w) = putInstance a d2 w.
Proof. unfold putInstance; simpl. now rewrite list_insert_insert_eq. Qed.

Lemma putInstance_same (w : World) (a : nat) (d : Dabugger) :
  heap w !! a = Some d -> putInstance a d w = w.
Proof.
  intros H. destruct w as [h df o]. unfold putInstance; simpl in *.
  now rewrite list_insert_id.
Qed.

Lemma bind_Ok {A B} (m : M A) (k : A -> M B) (w w' : World) (a : A) :
  m w = Ok (a, w') -> bind m k w = k a w'.
Proof. intros H. unfold bind. now rewrite H. Qed.

Lemma bind_Panic {A B} (m : M A) (k : A -> M B) (w : World) (r : string) :
  m w = Panic r -> bind m k w = Panic r.
Proof. intros H. unfold bind. now rewrite H. Qed.

(** ** The rendered prefix *)

Lemma Sprintf_kv (k v : string) :
  Sprintf [VerbS false None; Lit ":"; VerbS false None] [AString k; AString v]
  = k +:+ ":" +:+ v.
Proof. simpl. now rewrite append_nil_r. Qed.

Lemma genPrefix_loop_tail (i : Z) (cs : list dcontext) (c : string) :
  0 < i ->
  genPrefix_loop i cs c = c +:+ flatten (map (fun x => ", " +:+ kvString x) cs).
Proof.
  revert i c. induction cs as [|x cs IH]; intros i c Hi.
  - simpl. now rewrite append_nil_r.
  - cbn [genPrefix_loop]. rewrite Sprintf_kv.
    apply Z.ltb_lt in Hi as Hi'. rewrite Hi'.
    rewrite IH by lia. cbn [map flatten foldr]. fold (flatten (map (fun x => ", " +:+ kvString x) cs)).
    unfold kvString. now rewrite !append_assoc.
Qed.

Lemma join_kv (x : dcontext) (cs : list dcontext) :
  String.concat ", " (map kvString (x :: cs))
  = kvString x +:+ flatten (map (fun y => ", " +:+ kvString y) cs).
Proof.
  revert x. induction cs as [|y cs IH]; intros x.
  - simpl. now rewrite append_nil_r.
  - change (String.concat ", " (map kvString (x :: y :: cs)))
      with (kvString x +:+ ", " +:+ String.concat ", " (map kvString (y :: cs))).
    rewrite IH. cbn [map flatten foldr]. now rewrite !append_assoc.
Qed.

Lemma genPrefix_loop_join (cs : list dcontext) (c : string) :
  cs <> [] ->
  genPrefix_loop 0 cs c = c +:+ String.concat ", " (map kvString cs).
Proof.
  destruct cs as [|x cs]; [congruence|]. intros _.
  cbn [genPrefix_loop]. rewrite Sprintf_kv. simpl (0 <? 0).
  rewrite genPrefix_loop_tail by lia. rewrite join_kv.
  unfold kvString. now rewrite !append_assoc.
Qed.

Lemma source_String_eq (s : source) :
  source_String s = File s +:+ ":" +:+ itoa (Line s).
Proof. unfold source_String. simpl. now rewrite append_nil_r. Qed.

Lemma genPrefix_Some (w : World) (a : nat) (dd : Dabugger) (l : line) :
  heap w !! a = Some dd ->
  genPrefix (Some a) l w
  = Ok (mkLine (msg l) (src l) (renderPrefix (linePrefix dd) (src l) (contexts dd)), w).
Proof.
  intros H. unfold genPrefix. rewrite (bind_Ok _ _ _ _ _ (load_Some _ _ _ H)).
  unfold ret. do 3 f_equal. unfold renderPrefix. rewrite source_String_eq.
  destruct (contexts dd) as [|x cs] eqn:E.
  - simpl. now rewrite !append_assoc.
  - replace (0 <? Z.of_nat (length (x :: cs))) with true
      by (symmetry; apply Z.ltb_lt; simpl; lia).
    rewrite genPrefix_loop_join by discriminate.
    unfold contextString.
    cbn [Sprintf padString]. rewrite append_nil_r.
    now rewrite !append_assoc.
Qed.

(** C8: the prefix of a line is the instance prefix, file:line, the
    parenthesised context list (" (k1:v1, k2:v2)", pairs joined by ", " in
    the order of the stack, where AddContext pushes at the end) and one
    trailing space; with an empty stack the parenthesised part is absent. *)
Theorem genPrefix_rendering (w : World) (a : nat) (dd : Dabugger) (l : line) :
  heap w !! a = Some dd ->
  (exists p,
      genPrefix (Some a) l w = Ok (mkLine (msg l) (src l) p, w) /\
      (contexts dd = [] ->
       p = linePrefix dd +:+ File (src l) +:+ ":" +:+ itoa (Line (src l)) +:+ " ") /\
      (contexts dd <> [] ->
       p = linePrefix dd +:+ File (src l) +:+ ":" +:+ itoa (Line (src l)) +:+
           " (" +:+ String.concat ", " (map (fun c => key c +:+ ":" +:+ value c) (contexts dd)) +:+
           ")" +:+ " ")) /\
  (forall k v,
      AddContext (Some a) k v w
      = Ok (tt, putInstance a (set_contexts dd (contexts dd ++ [mkContext k v])) w)).
Proof.
  intros H. split.
  - eexists. split; [apply (genPrefix_Some _ _ _ _ H)|].
    unfold renderPrefix, contextString. split; intros Hc.
    + now rewrite Hc.
    + destruct (contexts dd); [congruence|]. now rewrite !append_assoc.
  - intros k v. unfold AddContext. now rewrite (modify_Some _ _ _ _ H).
Qed.

Lemma genPrefix_rendering_witness :
  exists w, (init ;; Default.AddContext "k1" "v1" ;; Default.AddContext "k2" "v2") startWorld
            = Ok (tt, w) /\
    genPrefix (Some 1%nat) (mkLine "m" (mkSource "main.go" "main.main" 12) "") w
    = Ok (mkLine "m" (mkSource "main.go" "main.main" 12)
                 "DABUG: main.go:12 (k1:v1, k2:v2) ", w).
Proof.
  eexists. split; [reflexivity|].
  match goal with
  | |- genPrefix (Some ?a) ?l ?w = _ =>
      destruct (genPrefix_rendering w a _ l eq_refl) as [[p [Hp [_ Hne]]] _]
  end.
  rewrite Hp. rewrite Hne by discriminate. reflexivity.
Defined.

(** ** Removing contexts by key *)


Lemma RemoveContext_loop (k : string) (cs acc : list dcontext) :
  fold_left (fun acc c => if negb (String.eqb (key c) k) then acc ++ [c] else acc) cs acc
  = acc ++ List.filter (keeps k) cs.
Proof.
  revert acc. induction cs as [|c cs IH]; intros acc; simpl.
  - now rewrite app_nil_r.
  - rewrite IH. unfold keeps at 2. destruct (negb (String.eqb (key c) k)).
    + now rewrite <- app_assoc.
    + reflexivity.
Qed.

Lemma filter_sublist {A} (f : A -> bool) (l : list A) : sublist (List.filter f l) l.
Proof.
  induction l as [|x l IH]; simpl; [constructor|].
  destruct (f x); now constructor.
Qed.

(** X25: in the current copy of the package RemoveContext(key) drops every
    entry whose key is [key], wherever it sits in the stack, and keeps all
    other entries in their order. *)
Theorem RemoveContext_removes_all (w : World) (a : nat) (dd : Dabugger) (k : string) :
  heap w !! a = Some dd ->
  RemoveContext (Some a) k w
  = Ok (tt, putInstance a (set_contexts dd (List.filter (keeps k) (contexts dd))) w) /\
  (forall c, In c (List.filter (keeps k) (contexts dd)) <-> In c (contexts dd) /\ key c <> k) /\
  sublist (List.filter (keeps k) (contexts dd)) (contexts dd).
Proof.
  intros H. split; [|split].
  - unfold RemoveContext. rewrite (bind_Ok _ _ _ _ _ (load_Some _ _ _ H)).
    rewrite (modify_Some _ _ _ _ H). now rewrite RemoveContext_loop.
  - intros c. rewrite filter_In. unfold keeps.
    rewrite negb_true_iff, String.eqb_neq. reflexivity.
  - apply filter_sublist.
Qed.

Lemma RemoveContext_removes_all_witness :
  RemoveContext (Some 0%nat) "a"
    (mkWorld [mkDabugger [] [mkContext "a" "1"; mkContext "b" "2"; mkContext "a" "3";
                              mkContext "c" "4"] Stdout "" false 4] (Some 0%nat) [])
  = Ok (tt, mkWorld [mkDabugger [] [mkContext "b" "2"; mkContext "c" "4"] Stdout "" false 4]
                    (Some 0%nat) []).
Proof.
  match goal with
  | |- RemoveContext (Some ?a) ?k ?w = _ =>
      destruct (RemoveContext_removes_all w a _ k eq_refl) as [E _]
  end.
  rewrite E. reflexivity.
Defined.

(** ** Flush *)

Lemma flatten_app (l1 l2 : list string) :
  flatten (l1 ++ l2) = flatten l1 +:+ flatten l2.
Proof.
  induction l1 as [|x l1 IH]; simpl; [reflexivity|].
  fold (flatten (l1 ++ l2)). fold (flatten l1). now rewrite IH, append_assoc.
Qed.

Lemma builder_loop (f : line -> string) (ls : list line) (sb : string) :
  fold_left (fun sb l => sb +:+ (f l +:+ nl)) ls sb
  = sb +:+ flatten (map (fun l => f l +:+ nl) ls).
Proof.
  revert sb. induction ls as [|l ls IH]; intros sb; simpl.
  - now rewrite append_nil_r.
  - rewrite IH. fold (flatten (map (fun l => f l +:+ nl) ls)).
    now rewrite !append_assoc.
Qed.

Lemma maxPrefixLen_loop (ls : list line) (m : Z) :
  0 <= m ->
  fold_left (fun m l => Z.max m (Z.of_nat (String.length (prefix l)))) ls m
  = Z.max m (Z.of_nat (maxWidth ls)).
Proof.
  revert m. induction ls as [|l ls IH]; intros m Hm; simpl.
  - unfold maxWidth. simpl. lia.
  - rewrite IH by lia. unfold maxWidth. simpl. lia.
Qed.

Lemma maxPrefixLen_nonempty (ls : list line) :
  ls <> [] ->
  fold_left (fun m l => Z.max m (Z.of_nat (String.length (prefix l)))) ls (-1)
  = Z.of_nat (maxWidth ls).
Proof.
  destruct ls as [|l ls]; [congruence|]. intros _. simpl.
  rewrite maxPrefixLen_loop by lia. unfold maxWidth. simpl. lia.
Qed.

Lemma padString_left (W : nat) (s : string) :
  padString true (Some (Z.of_nat W)) s = padRight W s.
Proof.
  unfold padString, padRight. do 2 f_equal. lia.
Qed.

Lemma length_zero_eqb (s : string) :
  Nat.eqb (String.length s) 0 = String.eqb s "".
Proof. destruct s; reflexivity. Qed.

Lemma lineStr_padded (W : nat) (l : line) :
  lineStr [VerbS true (Some (Z.of_nat W))] l = renderLine W l.
Proof.
  unfold lineStr, renderLine, suffixOf. rewrite length_zero_eqb.
  destruct (String.eqb (msg l) ""); cbn [app Sprintf]; rewrite padString_left.
  - reflexivity.
  - cbn [padString]. now rewrite append_nil_r.
Qed.

Lemma lineStr_plain (l : line) :
  lineStr [VerbS false None] l
  = prefix l +:+ (if String.eqb (msg l) "" then "" else "- " +:+ msg l).
Proof.
  unfold lineStr. rewrite length_zero_eqb.
  destruct (String.eqb (msg l) ""); cbn [app Sprintf padString].
  - reflexivity.
  - now rewrite append_nil_r.
Qed.

Lemma Flush_empty (w : World) (a : nat) (dd : Dabugger) :
  heap w !! a = Some dd -> lines dd = [] -> Flush (Some a) w = Ok (tt, w).
Proof.
  intros H E. unfold Flush. rewrite (bind_Ok _ _ _ _ _ (load_Some _ _ _ H)).
  now rewrite E.
Qed.

Lemma Fprint_ok (wr : io_Writer) (s : string) (w : World) :
  wr <> NilWriter -> Fprint wr s w = Ok (tt, written wr s w).
Proof. intros H. unfold Fprint, written. now destruct wr. Qed.

Lemma block_built (P : string) (ls : list line) :
  (("" +:+ Sprintf [VerbS false None; VerbS false None; Lit nl]
                   [AString P; AString sectionBeg]) +:+
   flatten (map (fun l => lineStr [VerbS true (Some (Z.of_nat (maxWidth ls)))] l +:+ nl) ls)) +:+
  Sprintf [VerbS false None; VerbS false None; Lit nl] [AString P; AString sectionEnd]
  = block P ls.
Proof.
  unfold block, segments. cbn [map flatten foldr Sprintf padString].
  rewrite map_app, map_map, flatten_app. cbn [map flatten foldr].
  rewrite (map_ext _ _ (fun l => f_equal (fun s => s +:+ nl) (lineStr_padded (maxWidth ls) l))).
  rewrite !append_nil_r. cbn [String.append]. now rewrite !append_assoc.
Qed.

Lemma Flush_pending (w : World) (a : nat) (dd : Dabugger) :
  heap w !! a = Some dd -> lines dd <> [] -> writer dd <> NilWriter ->
  Flush (Some a) w
  = Ok (tt, putInstance a (set_lines dd [])
              (written (writer dd) (block (linePrefix dd) (lines dd)) w)).
Proof.
  intros H Hne Hw. unfold Flush. rewrite (bind_Ok _ _ _ _ _ (load_Some _ _ _ H)).
  destruct (lines dd) as [|l0 ls0] eqn:E; [congruence|].
  cbn [length Nat.eqb]. rewrite <- E in *.
  rewrite maxPrefixLen_nonempty by exact Hne.
  rewrite builder_loop, block_built.
  rewrite (bind_Ok _ _ _ _ _ (Fprint_ok _ _ _ Hw)).
  unfold clearLines. now erewrite modify_Some by (unfold written; simpl; exact H).
Qed.

Lemma maxWidth_upper (ls : list line) (l : line) :
  In l ls -> (String.length (prefix l) <= maxWidth ls)%nat.
Proof.
  intros Hl. unfold maxWidth. apply max_list_elem_of_le, list_elem_of_In.
  apply in_map_iff. now exists l.
Qed.

Lemma maxWidth_attained (ls : list line) :
  ls <> [] -> exists l, In l ls /\ String.length (prefix l) = maxWidth ls.
Proof.
  intros Hne. unfold maxWidth.
  assert (Hm : map (fun l => String.length (prefix l)) ls <> [])
    by (destruct ls; [congruence | discriminate]).
  apply max_list_elem_of, list_elem_of_In, in_map_iff in Hm as [l [E Hl]].
  now exists l.
Qed.

Lemma padRight_width (W : nat) (s : string) :
  (String.length s <= W)%nat -> RuneCountInString (padRight W s) = W.
Proof.
  intros H. unfold padRight. rewrite RuneCount_spaces.
  pose proof (RuneCount_le_len s). lia.
Qed.

Lemma padRight_length_ascii (W : nat) (s : string) :
  isASCII s -> (String.length s <= W)%nat -> String.length (padRight W s) = W.
Proof.
  intros Ha H. unfold padRight.
  rewrite length_append, length_spaces, (RuneCount_ascii _ Ha). lia.
Qed.

Lemma containsNl_append (s t : string) :
  containsNl (s +:+ t) = containsNl s || containsNl t.
Proof.
  induction s as [|c s IH]; simpl; [reflexivity|].
  now rewrite IH, orb_assoc.
Qed.

Lemma containsNl_spaces (n : nat) : containsNl (spaces n) = false.
Proof. induction n as [|n IH]; simpl; [reflexivity | exact IH]. Qed.

Lemma Split_nl_segment (s rest : string) :
  containsNl s = false -> Split_nl (s +:+ nl +:+ rest) = s :: Split_nl rest.
Proof.
  induction s as [|c s IH]; intros H; simpl in *.
  - reflexivity.
  - apply orb_false_elim in H as [Hc Hs]. rewrite Hc.
    now rewrite (IH Hs).
Qed.

Lemma Split_nl_flatten (segs : list string) :
  Forall (fun seg => containsNl seg = false) segs ->
  Split_nl (flatten (map (fun seg => seg +:+ nl) segs)) = segs ++ [""].
Proof.
  induction 1 as [|seg segs Hseg _ IH]; simpl; [reflexivity|].
  fold (flatten (map (fun seg => seg +:+ nl) segs)).
  rewrite append_assoc, Split_nl_segment by exact Hseg. now rewrite IH.
Qed.

Lemma renderLine_no_newline (W : nat) (l : line) :
  containsNl (prefix l) = false -> containsNl (msg l) = false ->
  containsNl (renderLine W l) = false.
Proof.
  intros Hp Hm. unfold renderLine, padRight, suffixOf.
  rewrite !containsNl_append, Hp, containsNl_spaces.
  destruct (String.eqb (msg l) ""); simpl; [reflexivity | exact Hm].
Qed.

Lemma segments_no_newline (P : string) (ls : list line) :
  containsNl P = false ->
  (forall l, In l ls -> containsNl (prefix l) = false /\ containsNl (msg l) = false) ->
  Forall (fun seg => containsNl seg = false) (segments P ls).
Proof.
  intros HP Hls. unfold segments. constructor.
  - now rewrite containsNl_append, HP.
  - apply Forall_app. split.
    + apply Forall_forall. intros seg Hseg. apply list_elem_of_In in Hseg.
      apply in_map_iff in Hseg as [l [<- Hl]].
      destruct (Hls l Hl). now apply renderLine_no_newline.
    + constructor; [|constructor]. now rewrite containsNl_append, HP.
Qed.

(** C3: with N lines pending, Flush makes exactly one write to the
    instance's writer.  The text written is N+2 segments, each followed by
    one newline: the line prefix and "-----", then every pending line in
    the order it was appended, its prefix padded on the right with spaces to
    the width W of the longest pending prefix and followed by "- " and the
    message unless the message is empty, then the line prefix and "=====".
    W is the largest byte length of a pending prefix and every padded
    prefix is W runes wide (W bytes long when the prefix is ASCII).  When
    neither the line prefix nor a pending line holds a newline, splitting
    the text at newlines gives back these N+2 segments and one empty
    rest. *)
Theorem Flush_block_format (w : World) (a : nat) (dd : Dabugger) :
  heap w !! a = Some dd -> lines dd <> [] -> writer dd <> NilWriter ->
  let P := linePrefix dd in
  let ls := lines dd in
  let W := maxWidth ls in
  let padded := fun l => prefix l +:+ spaces (W - RuneCountInString (prefix l)) in
  let segs :=
    (P +:+ "-----")
      :: map (fun l => padded l +:+ (if String.eqb (msg l) "" then "" else "- " +:+ msg l)) ls
      ++ [P +:+ "====="] in
  Flush (Some a) w
  = Ok (tt, putInstance a (set_lines dd [])
              (written (writer dd) (flatten (map (fun seg => seg +:+ nl) segs)) w)) /\
  length segs = (length ls + 2)%nat /\
  (forall l, In l ls ->
     (String.length (prefix l) <= W)%nat /\
     RuneCountInString (padded l) = W /\
     (isASCII (prefix l) -> String.length (padded l) = W)) /\
  (exists l, In l ls /\ String.length (prefix l) = W) /\
  (containsNl P = false ->
   (forall l, In l ls -> containsNl (prefix l) = false /\ containsNl (msg l) = false) ->
   Split_nl (flatten (map (fun seg => seg +:+ nl) segs)) = segs ++ [""]).
Proof.
  intros H Hne Hw P ls W padded segs.
  split; [exact (Flush_pending _ _ _ H Hne Hw)|].
  split; [subst segs; simpl; rewrite length_app, length_map; simpl; lia|].
  split; [|split].
  - intros l Hl. pose proof (maxWidth_upper _ _ Hl) as Hle.
    split; [exact Hle|]. split.
    + apply (padRight_width _ _ Hle).
    + intros Ha. apply (padRight_length_ascii _ _ Ha Hle).
  - apply maxWidth_attained, Hne.
  - intros HP Hls. apply Split_nl_flatten. now apply segments_no_newline.
Qed.

Lemma Flush_block_format_witness :
  Flush (Some 0%nat)
    (mkWorld [mkDabugger [mkLine "msg" (mkSource "a.go" "f" 3) "P: a.go:3 ";
                          mkLine "" (mkSource "a.go" "f" 14) "P: a.go:14 (k:v) "]
                         [] (Sink 7) "Q: " false 4] (Some 0%nat) [])
  = Ok (tt, mkWorld [mkDabugger [] [] (Sink 7) "Q: " false 4] (Some 0%nat)
              [(Sink 7, "Q: -----" +:+ nl +:+
                        "P: a.go:3        - msg" +:+ nl +:+
                        "P: a.go:14 (k:v) " +:+ nl +:+
                        "Q: =====" +:+ nl)]).
Proof.
  match goal with
  | |- Flush (Some ?a) ?w = _ =>
      destruct (Flush_block_format w a _ eq_refl) as [E _];
        [discriminate | discriminate |]
  end.
  rewrite E. reflexivity.
Defined.

(** C4: Flush with nothing pending writes nothing and changes nothing;
    whenever lines are pending, Flush returns with the buffer empty, and
    a second Flush right after it leaves the world, its output included,
    as it is. *)
Theorem Flush_idempotent (w : World) (a : nat) (dd : Dabugger) :
  heap w !! a = Some dd ->
  (lines dd = [] -> Flush (Some a) w = Ok (tt, w)) /\
  (writer dd <> NilWriter ->
   exists w1 dd1,
     Flush (Some a) w = Ok (tt, w1) /\
     heap w1 !! a = Some dd1 /\ lines dd1 = [] /\
     Flush (Some a) w1 = Ok (tt, w1)).
Proof.
  intros H. split; [apply (Flush_empty _ _ _ H)|]. intros Hw.
  destruct (lines dd) as [|l0 ls0] eqn:E.
  - exists w, dd. rewrite (Flush_empty _ _ _ H E). repeat split; assumption.
  - assert (Hne : lines dd <> []) by (rewrite E; discriminate).
    eexists _, (set_lines dd []). split; [apply (Flush_pending _ _ _ H Hne Hw)|].
    assert (Hl : heap (putInstance a (set_lines dd [])
                         (written (writer dd) (block (linePrefix dd) (lines dd)) w)) !! a
                 = Some (set_lines dd []))
      by (apply (lookup_putInstance _ _ dd); exact H).
    split; [exact Hl|]. split; [reflexivity|].
    apply (Flush_empty _ _ _ Hl). reflexivity.
Qed.

Lemma Flush_idempotent_witness :
  exists w1,
    Flush (Some 0%nat)
      (mkWorld [mkDabugger [mkLine "m" (mkSource "a.go" "f" 3) "a.go:3 "] [] Stdout "" false 4]
               (Some 0%nat) []) = Ok (tt, w1) /\
    length (out w1) = 1%nat /\
    Flush (Some 0%nat) w1 = Ok (tt, w1).
Proof.
  match goal with
  | |- exists w1, Flush (Some ?a) ?w = _ /\ _ =>
      destruct (Flush_idempotent w a _ eq_refl) as [_ Hex];
        destruct Hex as [w1 [dd1 [E1 [_ [_ E2]]]]]; [discriminate|]
  end.
  exists w1. split; [exact E1|]. split; [|exact E2].
  vm_compute in E1. injection E1 as <-. reflexivity.
Defined.

(** ** Appending lines *)


Lemma appendLine_buffered (w : World) (a : nat) (dd : Dabugger) (l : line) :
  heap w !! a = Some dd -> autoFlush dd = false ->
  appendLine (Some a) l w
  = Ok (tt, putInstance a
              (set_lines dd (lines dd ++
                 [mkLine (msg l) (src l) (renderPrefix (linePrefix dd) (src l) (contexts dd))]))
              w).
Proof.
  intros H Hb. unfold appendLine.
  rewrite (bind_Ok _ _ _ _ _ (genPrefix_Some _ _ _ _ H)).
  rewrite (bind_Ok _ _ _ _ _ (load_Some _ _ _ H)). rewrite Hb.
  now rewrite (modify_Some _ _ _ _ H).
Qed.

Lemma appendLine_autoFlush (w : World) (a : nat) (dd : Dabugger) (l : line) :
  heap w !! a = Some dd -> autoFlush dd = true -> writer dd <> NilWriter ->
  appendLine (Some a) l w
  = Ok (tt, written (writer dd)
              (renderPrefix (linePrefix dd) (src l) (contexts dd) +:+ suffixOf (msg l) +:+ nl) w).
Proof.
  intros H Hb Hw. unfold appendLine.
  rewrite (bind_Ok _ _ _ _ _ (genPrefix_Some _ _ _ _ H)).
  rewrite (bind_Ok _ _ _ _ _ (load_Some _ _ _ H)). rewrite Hb.
  unfold flushLine. rewrite (bind_Ok _ _ _ _ _ (load_Some _ _ _ H)).
  rewrite lineStr_plain. cbn [Sprintf padString msg prefix].
  rewrite (Fprint_ok _ _ _ Hw). unfold suffixOf.
  now rewrite append_nil_r, append_assoc.
Qed.

Lemma appendMsg_buffered (w : World) (a : nat) (dd : Dabugger) (site : source) (m : string) :
  heap w !! a = Some dd -> autoFlush dd = false ->
  appendMsg (Some a) site m w
  = Ok (tt, putInstance a
              (set_lines dd (lines dd ++
                 [mkLine m site (renderPrefix (linePrefix dd) site (contexts dd))])) w).
Proof.
  intros H Hb. unfold appendMsg, getSource.
  rewrite (bind_Ok _ _ _ _ (site) (bind_Ok _ _ _ _ _ (load_Some _ _ _ H))).
  exact (appendLine_buffered _ _ _ (mkLine m site "") H Hb).
Qed.

Lemma appendMsg_autoFlush (w : World) (a : nat) (dd : Dabugger) (site : source) (m : string) :
  heap w !! a = Some dd -> autoFlush dd = true -> writer dd <> NilWriter ->
  appendMsg (Some a) site m w
  = Ok (tt, written (writer dd)
              (renderPrefix (linePrefix dd) site (contexts dd) +:+ suffixOf m +:+ nl) w).
Proof.
  intros H Hb Hw. unfold appendMsg, getSource.
  rewrite (bind_Ok _ _ _ _ (site) (bind_Ok _ _ _ _ _ (load_Some _ _ _ H))).
  exact (appendLine_autoFlush _ _ _ (mkLine m site "") H Hb Hw).
Qed.

(** Configuration calls leave the pending lines alone. *)
Lemma runCall_lines (w w' : World) (a : nat) (dd : Dabugger) (c : configCall) :
  heap w !! a = Some dd -> runCall (Some a) c w = Ok (tt, w') ->
  exists dd', heap w' !! a = Some dd' /\ lines dd' = lines dd /\ out w' = out w.
Proof.
  intros H R.
  assert (Hput : forall d', lines d' = lines dd ->
            Ok (tt, putInstance a d' w) = Ok (tt, w') ->
            exists dd', heap w' !! a = Some dd' /\ lines dd' = lines dd /\ out w' = out w).
  { intros d' Hd' Hm. injection Hm as <-. exists d'.
    split; [apply (lookup_putInstance _ _ dd), H|]. split; [exact Hd' | reflexivity]. }
  destruct c; simpl in R;
    unfold LinePrefix, Writer, AddContext, RemoveContext, RemoveAllContext,
           RemoveTopContext in R;
    rewrite ?(bind_Ok _ _ _ _ _ (load_Some _ _ _ H)) in R;
    try (destruct (Z.of_nat (length (contexts dd)) - 1 <? 0); [discriminate|]);
    rewrite (modify_Some _ _ _ _ H) in R;
    (eapply Hput; [|exact R]; reflexivity).
Qed.

Lemma runCalls_lines (cs : list configCall) (w w' : World) (a : nat) (dd : Dabugger) :
  heap w !! a = Some dd -> runCalls (Some a) cs w = Ok (tt, w') ->
  exists dd', heap w' !! a = Some dd' /\ lines dd' = lines dd /\ out w' = out w.
Proof.
  revert w dd. induction cs as [|c cs IH]; intros w dd H R; simpl in R.
  - injection R as <-. now exists dd.
  - unfold bind in R. destruct (runCall (Some a) c w) as [[[] w1]|] eqn:E; [|discriminate].
    destruct (runCall_lines _ _ _ _ _ H E) as [d1 [H1 [L1 O1]]].
    destruct (IH _ _ H1 R) as [d2 [H2 [L2 O2]]].
    exists d2. split; [exact H2|]. split; congruence.
Qed.

(** C5: appendLine renders the prefix of the line from the line prefix and
    the context stack of that moment and stores it with the line.  Whatever
    calls change the line prefix, the writer or the contexts afterwards, the
    stored line is the same when Flush runs; Flush writes the block whose
    two delimiter lines carry the line prefix of the moment of the flush and
    whose other lines carry their stored prefixes. *)
Theorem prefix_fixed_at_append (w : World) (a : nat) (dd : Dabugger) (l : line) :
  heap w !! a = Some dd -> autoFlush dd = false ->
  let stored := mkLine (msg l) (src l) (renderPrefix (linePrefix dd) (src l) (contexts dd)) in
  exists w1,
    appendLine (Some a) l w = Ok (tt, w1) /\
    forall calls w2,
      runCalls (Some a) calls w1 = Ok (tt, w2) ->
      exists dd2,
        heap w2 !! a = Some dd2 /\
        lines dd2 = lines dd ++ [stored] /\
        (writer dd2 <> NilWriter ->
         Flush (Some a) w2
         = Ok (tt, putInstance a (set_lines dd2 [])
                     (written (writer dd2)
                        (flatten (map (fun seg => seg +:+ nl)
                           ((linePrefix dd2 +:+ "-----")
                              :: map (renderLine (maxWidth (lines dd ++ [stored])))
                                     (lines dd ++ [stored])
                              ++ [linePrefix dd2 +:+ "====="]))) w2))).
Proof.
  intros H Hb stored. eexists. split; [apply (appendLine_buffered _ _ _ _ H Hb)|].
  intros calls w2 R.
  eapply runCalls_lines in R as [dd2 [H2 [L2 _]]];
    [|apply (lookup_putInstance _ _ dd), H].
  exists dd2. split; [exact H2|]. split; [exact L2|]. intros Hw.
  assert (Hne : lines dd2 <> []).
  { rewrite L2. simpl. destruct (lines dd); discriminate. }
  rewrite (Flush_pending _ _ _ H2 Hne Hw). unfold block, segments.
  rewrite L2. reflexivity.
Qed.

Lemma prefix_fixed_at_append_witness :
  (appendLine (Some 0%nat) (mkLine "first" (mkSource "a.go" "f" 3) "") ;;
   LinePrefix (Some 0%nat) "B: " ;;
   AddContext (Some 0%nat) "k" "v" ;;
   Flush (Some 0%nat))
    (mkWorld [mkDabugger [] [] (Sink 1) "A: " false 4] (Some 0%nat) [])
  = Ok (tt, mkWorld [mkDabugger [] [mkContext "k" "v"] (Sink 1) "B: " false 4] (Some 0%nat)
              [(Sink 1, "B: -----" +:+ nl +:+ "A: a.go:3 - first" +:+ nl +:+ "B: =====" +:+ nl)]).
Proof.
  match goal with
  | |- bind (appendLine (Some ?a) ?l) _ ?w = _ =>
      destruct (prefix_fixed_at_append w a _ l eq_refl eq_refl) as [w1 [E1 Hafter]]
  end.
  rewrite (bind_Ok _ _ _ _ _ E1).
  destruct (Hafter [CallLinePrefix "B: "; CallAddContext "k" "v"]
                   (mkWorld [mkDabugger [mkLine "first" (mkSource "a.go" "f" 3) "A: a.go:3 "]
                                        [mkContext "k" "v"] (Sink 1) "B: " false 4]
                            (Some 0%nat) []))
    as [dd2 [H2 [_ HF]]].
  { vm_compute in E1. injection E1 as <-. reflexivity. }
  injection H2 as <-.
  vm_compute in E1. injection E1 as <-.
  change (Flush (Some 0%nat)
            (mkWorld [mkDabugger [mkLine "first" (mkSource "a.go" "f" 3) "A: a.go:3 "]
                                 [mkContext "k" "v"] (Sink 1) "B: " false 4]
                     (Some 0%nat) [])
          = Ok (tt, mkWorld [mkDabugger [] [mkContext "k" "v"] (Sink 1) "B: " false 4]
                      (Some 0%nat)
                      [(Sink 1, "B: -----" +:+ nl +:+ "A: a.go:3 - first" +:+ nl +:+
                                "B: =====" +:+ nl)])).
  rewrite HF by discriminate. reflexivity.
Defined.

(** ** Stack *)

Lemma bind_ext {A B} (m : M A) (k1 k2 : A -> M B) (w : World) :
  (forall x w', k1 x w' = k2 x w') -> bind m k1 w = bind m k2 w.
Proof. intros H. unfold bind. destruct (m w) as [[x w']|]; [apply H | reflexivity]. Qed.

Lemma Stack_loop_all (d : ptr) (site : source) (num i : Z) (ls : list string) (w : World) :
  num <= 0 -> Stack_loop d site num i ls w = emitAll d site ls w.
Proof.
  intros Hn. revert i w. induction ls as [|x ls IH]; intros i w; simpl; [reflexivity|].
  apply bind_ext. intros _ w'.
  replace (0 <? num) with false by (symmetry; apply Z.ltb_ge; lia).
  apply IH.
Qed.

Lemma Stack_loop_first (d : ptr) (site : source) (num i : Z) (ls : list string) (w : World) :
  0 <= i < num ->
  Stack_loop d site num i ls w = emitAll d site (take (Z.to_nat (num - i)) ls) w.
Proof.
  revert i w. induction ls as [|x ls IH]; intros i w Hi; simpl.
  - now rewrite take_nil.
  - replace (Z.to_nat (num - i)) with (S (Z.to_nat (num - (i + 1)))) by lia.
    simpl. apply bind_ext. intros _ w'.
    replace (0 <? num) with true by (symmetry; apply Z.ltb_lt; lia). simpl.
    destruct (num <=? i + 1) eqn:E.
    + apply Z.leb_le in E. replace (Z.to_nat (num - (i + 1))) with 0%nat by lia.
      now rewrite take_0.
    + apply Z.leb_gt in E. apply IH. lia.
Qed.

Lemma set_lines_same (dd : Dabugger) : set_lines dd (lines dd) = dd.
Proof. now destruct dd. Qed.

Lemma emitAll_buffered (ms : list string) (w : World) (a : nat) (dd : Dabugger)
    (site : source) :
  heap w !! a = Some dd -> autoFlush dd = false ->
  emitAll (Some a) site ms w
  = Ok (tt, putInstance a
              (set_lines dd (lines dd ++
                 map (fun m => mkLine m site (renderPrefix (linePrefix dd) site (contexts dd))) ms))
              w).
Proof.
  revert w dd. induction ms as [|m ms IH]; intros w dd H Hb; simpl.
  - rewrite app_nil_r, set_lines_same. unfold ret. now rewrite (putInstance_same _ _ _ H).
  - rewrite (bind_Ok _ _ _ _ _ (appendMsg_buffered _ _ _ site m H Hb)).
    erewrite IH; [|apply (lookup_putInstance _ _ dd), H | exact Hb].
    rewrite putInstance_twice. unfold set_lines; simpl. now rewrite <- app_assoc.
Qed.

Lemma emitAll_autoFlush (ms : list string) (w : World) (a : nat) (dd : Dabugger)
    (site : source) :
  heap w !! a = Some dd -> autoFlush dd = true -> writer dd <> NilWriter ->
  emitAll (Some a) site ms w
  = Ok (tt, mkWorld (heap w) (defDabugger w)
              (out w ++ map (fun m => (writer dd,
                   renderPrefix (linePrefix dd) site (contexts dd) +:+ suffixOf m +:+ nl)) ms)).
Proof.
  revert w. induction ms as [|m ms IH]; intros w H Hb Hw; simpl.
  - rewrite app_nil_r. now destruct w.
  - rewrite (bind_Ok _ _ _ _ _ (appendMsg_autoFlush _ _ _ site m H Hb Hw)).
    rewrite IH by assumption. unfold written; simpl. now rewrite <- app_assoc.
Qed.

(** C7: Stack(n) splits the trace into lines and hands them one by one to
    appendMsg, the path every message takes: all of them when n <= 0, the
    first n (all, when there are fewer) when n > 0, in the order of the
    trace.  In buffered mode each becomes a pending line of its own with the
    usual prefix; in auto-flush mode each is written by a write of its
    own. *)
Theorem Stack_emits_lines (d : ptr) (site : source) (trace : string) (num : Z) :
  let chosen := if num <=? 0 then Split_nl trace else take (Z.to_nat num) (Split_nl trace) in
  (forall w, Stack d site trace num w = emitAll d site chosen w) /\
  (forall w a dd,
      d = Some a -> heap w !! a = Some dd -> autoFlush dd = false ->
      Stack d site trace num w
      = Ok (tt, putInstance a
                  (set_lines dd (lines dd ++
                     map (fun m => mkLine m site
                                     (renderPrefix (linePrefix dd) site (contexts dd))) chosen))
                  w)) /\
  (forall w a dd,
      d = Some a -> heap w !! a = Some dd -> autoFlush dd = true -> writer dd <> NilWriter ->
      Stack d site trace num w
      = Ok (tt, mkWorld (heap w) (defDabugger w)
                  (out w ++ map (fun m => (writer dd,
                       renderPrefix (linePrefix dd) site (contexts dd) +:+
                       (if String.eqb m "" then "" else "- " +:+ m) +:+ nl)) chosen))).
Proof.
  intros chosen.
  assert (E : forall w, Stack d site trace num w = emitAll d site chosen w).
  { intros w. unfold Stack, chosen. destruct (num <=? 0) eqn:En.
    - apply Stack_loop_all. now apply Z.leb_le.
    - apply Z.leb_gt in En. rewrite Stack_loop_first by lia. now rewrite Z.sub_0_r. }
  split; [exact E|]. split.
  - intros w a dd -> H Hb. rewrite E. now apply emitAll_buffered.
  - intros w a dd -> H Hb Hw. rewrite E. now apply emitAll_autoFlush.
Qed.

Lemma Stack_emits_lines_witness :
  Stack (Some 0%nat) (mkSource "a.go" "f" 3)
        ("goroutine 1 [running]:" +:+ nl +:+ "main.f()" +:+ nl +:+ "main.main()" +:+ nl) 2
        (mkWorld [mkDabugger [] [] Stdout "D: " false 4] (Some 0%nat) [])
  = Ok (tt, mkWorld [mkDabugger [mkLine "goroutine 1 [running]:" (mkSource "a.go" "f" 3) "D: a.go:3 ";
                                 mkLine "main.f()" (mkSource "a.go" "f" 3) "D: a.go:3 "]
                                [] Stdout "D: " false 4] (Some 0%nat) []).
Proof.
  match goal with
  | |- Stack ?d ?site ?trace ?num ?w = _ =>
      destruct (Stack_emits_lines d site trace num) as [_ [Hbuf _]];
        rewrite (Hbuf w 0%nat _ eq_refl eq_refl eq_refl)
  end.
  reflexivity.
Defined.

(** ** Construction *)

Lemma New_Some (w : World) (a : nat) (dd : Dabugger) :
  defDabugger w = Some a -> heap w !! a = Some dd ->
  New w = Ok (Some (length (heap w)),
              mkWorld (heap w ++ [mkDabugger [] [] Stdout (linePrefix dd) false 4])
                      (defDabugger w) (out w)).
Proof.
  intros Hd H. unfold New, bind, getDef, load, ret, alloc. rewrite Hd, H.
  destruct (String.eqb (linePrefix dd) "") eqn:E; cbn [heap defDabugger out];
    rewrite Hd; [|reflexivity].
  apply String.eqb_eq in E. now rewrite E.
Qed.

(** X26: in the current copy of the package, after init the default
    instance has auto-flush on and the prefix "DABUG: ".  New returns a
    fresh instance, distinct from the default one, with auto-flush off and
    the line prefix the default instance has at that moment; setting the
    line prefix of either instance afterwards leaves the other's as it
    is. *)
Theorem New_inherits_prefix_once :
  (exists w0 d0,
      init startWorld = Ok (tt, w0) /\ defDabugger w0 = Some 1%nat /\
      heap w0 !! 1%nat = Some d0 /\
      autoFlush d0 = true /\ linePrefix d0 = "DABUG: " /\ linePrefix d0 <> "") /\
  (forall w a dd,
      defDabugger w = Some a -> heap w !! a = Some dd ->
      exists n w1,
        New w = Ok (Some n, w1) /\ n <> a /\ defDabugger w1 = Some a /\
        heap w1 !! a = Some dd /\
        heap w1 !! n = Some (mkDabugger [] [] Stdout (linePrefix dd) false 4) /\
        (forall q, exists w2,
            Default.LinePrefix q w1 = Ok (tt, w2) /\
            heap w2 !! a = Some (set_linePrefix dd q) /\
            heap w2 !! n = Some (mkDabugger [] [] Stdout (linePrefix dd) false 4)) /\
        (forall q, exists w2,
            LinePrefix (Some n) q w1 = Ok (tt, w2) /\
            heap w2 !! a = Some dd /\
            heap w2 !! n = Some (mkDabugger [] [] Stdout q false 4))).
Proof.
  split.
  - eexists _, _. split; [reflexivity|]. repeat split. discriminate.
  - intros w a dd Hd H.
    pose proof (lookup_lt_Some _ _ _ H) as Hlt.
    set (fresh := mkDabugger [] [] Stdout (linePrefix dd) false 4).
    assert (Ha : (heap w ++ [fresh]) !! a = Some dd)
      by (rewrite lookup_app_l by exact Hlt; exact H).
    assert (Hn : (heap w ++ [fresh]) !! length (heap w) = Some fresh)
      by (rewrite lookup_app_r by lia; now rewrite Nat.sub_diag).
    eexists _, _. split; [apply (New_Some _ _ _ Hd H)|].
    split; [lia|]. split; [exact Hd|]. split; [exact Ha|]. split; [exact Hn|].
    split; intros q; eexists.
    + unfold Default.LinePrefix, Default.on, getDef. unfold bind at 1. cbn [defDabugger].
      rewrite Hd. unfold LinePrefix.
      split; [apply modify_Some; exact Ha|]. split.
      * apply (lookup_putInstance _ _ dd). exact Ha.
      * rewrite lookup_putInstance_ne by lia. exact Hn.
    + unfold LinePrefix. split; [apply modify_Some; exact Hn|]. split.
      * rewrite lookup_putInstance_ne by lia. exact Ha.
      * apply (lookup_putInstance _ _ fresh). exact Hn.
Qed.

Lemma New_inherits_prefix_once_witness :
  exists w1,
    (init ;; Default.LinePrefix "app: " ;; New) startWorld = Ok (Some 2%nat, w1) /\
    heap w1 !! 2%nat = Some (mkDabugger [] [] Stdout "app: " false 4).
Proof.
  destruct New_inherits_prefix_once as [_ Hnew].
  destruct (Hnew (mkWorld [zeroDabugger; mkDabugger [] [] Stdout "app: " true 5]
                          (Some 1%nat) [])
                 1%nat _ eq_refl eq_refl) as [n [w1 [E [_ [_ [_ [Hn _]]]]]]].
  exists w1. vm_compute in E. injection E as <- <-. split; [reflexivity | exact Hn].
Defined.

(** ** AutoFlush *)

Lemma AutoFlush_default (w : World) (a : nat) (dd : Dabugger) (flush : bool) :
  defDabugger w = Some a -> heap w !! a = Some dd ->
  lines dd <> [] -> writer dd <> NilWriter ->
  AutoFlush (Some a) flush w
  = Ok (tt, mkWorld (<[a := set_lines (set_autoFlush dd flush) []]> (heap w))
              (defDabugger w)
              (out w ++ [(writer dd, block (linePrefix dd) (lines dd))])).
Proof.
  intros Hd H Hne Hw. unfold AutoFlush.
  rewrite (bind_Ok _ _ _ _ _ (modify_Some _ _ _ _ H)).
  unfold getDef. unfold bind at 1. cbn [putInstance defDabugger]. rewrite Hd.
  assert (H1 : heap (putInstance a (set_autoFlush dd flush) w) !! a
               = Some (set_autoFlush dd flush))
    by (apply (lookup_putInstance _ _ dd), H).
  fold (putInstance a (set_autoFlush dd flush) w).
  rewrite (bind_Ok _ _ _ _ _ (load_Some _ _ _ H1)).
  replace (0 <? Z.of_nat (length (lines (set_autoFlush dd flush)))) with true.
  - rewrite (Flush_pending _ _ _ H1 Hne Hw).
    unfold putInstance, written; simpl. now rewrite list_insert_insert_eq, Hd.
  - symmetry. apply Z.ltb_lt. simpl. destruct (lines dd); [congruence | simpl; lia].
Qed.

(** C10: on the default instance AutoFlush(flag) with lines pending writes
    the block at once and empties the buffer, for flag = false just as for
    flag = true; the flag is stored either way. *)
Theorem AutoFlush_default_any_flag (w : World) (a : nat) (dd : Dabugger) (flush : bool) :
  defDabugger w = Some a -> heap w !! a = Some dd ->
  lines dd <> [] -> writer dd <> NilWriter ->
  exists w1 dd1,
    Default.AutoFlush flush w = Ok (tt, w1) /\
    heap w1 !! a = Some dd1 /\
    lines dd1 = [] /\ autoFlush dd1 = flush /\
    out w1 = out w ++ [(writer dd, block (linePrefix dd) (lines dd))].
Proof.
  intros Hd H Hne Hw. eexists _, _. split.
  - unfold Default.AutoFlush, Default.on, getDef. unfold bind at 1. rewrite Hd.
    apply (AutoFlush_default _ _ _ _ Hd H Hne Hw).
  - simpl. split.
    + apply list_lookup_insert_eq. eapply lookup_lt_Some, H.
    + split; [|split]; reflexivity.
Qed.

Lemma AutoFlush_default_any_flag_witness :
  exists w1,
    Default.AutoFlush false
      (mkWorld [zeroDabugger;
                mkDabugger [mkLine "m" (mkSource "a.go" "f" 3) "DABUG: a.go:3 "] []
                           Stdout "DABUG: " false 5] (Some 1%nat) [])
    = Ok (tt, w1) /\
    heap w1 !! 1%nat = Some (mkDabugger [] [] Stdout "DABUG: " false 5) /\
    out w1 = [(Stdout, "DABUG: -----" +:+ nl +:+ "DABUG: a.go:3 - m" +:+ nl +:+
                       "DABUG: =====" +:+ nl)].
Proof.
  match goal with
  | |- exists w1, Default.AutoFlush ?b ?w = _ /\ _ =>
      destruct (AutoFlush_default_any_flag w 1%nat _ b eq_refl eq_refl)
        as [w1 [dd1 [E _]]]; [discriminate | discriminate |]
  end.
  exists w1. split; [exact E|].
  vm_compute in E. injection E as <-. split; reflexivity.
Defined.

(** C2 fails on the code: AutoFlush looks at the pending lines of the
    default instance, not at those of its receiver.  On an instance other
    than the default one, while the default instance has nothing pending,
    AutoFlush(true) switches the mode, writes nothing and keeps the pending
    lines. *)
Theorem AutoFlush_other_instance_keeps_pending
    (w : World) (a def : nat) (dd ddef : Dabugger) (flush : bool) :
  defDabugger w = Some def -> a <> def ->
  heap w !! def = Some ddef -> lines ddef = [] ->
  heap w !! a = Some dd ->
  AutoFlush (Some a) flush w = Ok (tt, putInstance a (set_autoFlush dd flush) w).
Proof.
  intros Hd Hne Hdef Hl H. unfold AutoFlush.
  rewrite (bind_Ok _ _ _ _ _ (modify_Some _ _ _ _ H)).
  unfold getDef. unfold bind at 1. cbn [putInstance defDabugger]. rewrite Hd.
  fold (putInstance a (set_autoFlush dd flush) w).
  assert (H1 : heap (putInstance a (set_autoFlush dd flush) w) !! def = Some ddef)
    by (rewrite lookup_putInstance_ne by exact Hne; exact Hdef).
  rewrite (bind_Ok _ _ _ _ _ (load_Some _ _ _ H1)). now rewrite Hl.
Qed.

Lemma AutoFlush_other_instance_keeps_pending_witness :
  exists w1,
    (init ;;
     let* d := New in
     Msg d (mkSource "a.go" "f" 3) [Lit "msg"] [] ;;
     AutoFlush d true) startWorld = Ok (tt, w1) /\
    heap w1 !! 2%nat
    = Some (mkDabugger [mkLine "msg" (mkSource "a.go" "f" 3) "DABUG: a.go:3 "] []
                       Stdout "DABUG: " true 4) /\
    out w1 = [].
Proof.
  eexists. split.
  - change ((init ;; let* d := New in Msg d (mkSource "a.go" "f" 3) [Lit "msg"] [] ;;
             AutoFlush d true) startWorld)
      with (AutoFlush (Some 2%nat) true
              (mkWorld [zeroDabugger; mkDabugger [] [] Stdout "DABUG: " true 5;
                        mkDabugger [mkLine "msg" (mkSource "a.go" "f" 3) "DABUG: a.go:3 "]
                                   [] Stdout "DABUG: " false 4] (Some 1%nat) [])).
    match goal with
    | |- AutoFlush _ _ ?w = _ =>
        rewrite (AutoFlush_other_instance_keeps_pending w 2%nat 1%nat _ _ true
                   eq_refl ltac:(discriminate) eq_refl eq_refl eq_refl)
    end.
    reflexivity.
  - split; reflexivity.
Defined.

(** ** RemoveTopContext *)

(** C1 fails on the code: RemoveTopContext slices the stack to
    [len-1] without a test, so with an empty stack the bound is -1 and the
    call panics. *)
Theorem RemoveTopContext_empty_panics (w : World) (a : nat) (dd : Dabugger) :
  heap w !! a = Some dd -> contexts dd = [] ->
  RemoveTopContext (Some a) w = Panic sliceBounds.
Proof.
  intros H E. unfold RemoveTopContext.
  rewrite (bind_Ok _ _ _ _ _ (load_Some _ _ _ H)). now rewrite E.
Qed.

Lemma RemoveTopContext_empty_panics_witness :
  (init ;; Default.RemoveTopContext) startWorld = Panic sliceBounds /\
  (init ;; let* d := New in RemoveTopContext d) startWorld = Panic sliceBounds.
Proof.
  split.
  - change ((init ;; Default.RemoveTopContext) startWorld)
      with (RemoveTopContext (Some 1%nat)
              (mkWorld [zeroDabugger; mkDabugger [] [] Stdout "DABUG: " true 5] (Some 1%nat) [])).
    match goal with
    | |- RemoveTopContext _ ?w = _ =>
        apply (RemoveTopContext_empty_panics w 1%nat _ eq_refl eq_refl)
    end.
  - change ((init ;; let* d := New in RemoveTopContext d) startWorld)
      with (RemoveTopContext (Some 2%nat)
              (mkWorld [zeroDabugger; mkDabugger [] [] Stdout "DABUG: " true 5;
                        mkDabugger [] [] Stdout "DABUG: " false 4] (Some 1%nat) [])).
    match goal with
    | |- RemoveTopContext _ ?w = _ =>
        apply (RemoveTopContext_empty_panics w 2%nat _ eq_refl eq_refl)
    end.
Defined.

Lemma RemoveTopContext_nonempty (w : World) (a : nat) (dd : Dabugger)
    (cs : list dcontext) (c : dcontext) :
  heap w !! a = Some dd -> contexts dd = cs ++ [c] ->
  RemoveTopContext (Some a) w = Ok (tt, putInstance a (set_contexts dd cs) w).
Proof.
  intros H E. unfold RemoveTopContext.
  rewrite (bind_Ok _ _ _ _ _ (load_Some _ _ _ H)). rewrite E, length_app. simpl.
  replace (Z.of_nat (length cs + 1) - 1 <? 0) with false
    by (symmetry; apply Z.ltb_ge; lia).
  rewrite (modify_Some _ _ _ _ H). rewrite E.
  replace (Z.to_nat (Z.of_nat (length cs + 1) - 1)) with (length cs) by lia.
  now rewrite take_app_length.
Qed.

(** ** What the earlier iterations did differently *)

Remark Earlier_RemoveContext_stub :
  Earlier.contexts
    (Earlier.RemoveContext
       (Earlier.AddContext (Earlier.AddContext (Earlier.mkLogger [] []) "hello" "world")
                           "good" "bye") "hello")
  = [mkContext "hello" "world"; mkContext "good" "bye"].
Proof. reflexivity. Qed.

Remark Earlier_removeTopContext_empty :
  Earlier.removeTopContext (Earlier.mkLogger [] []) = Panic sliceBounds.
Proof. reflexivity. Qed.

Remark Earlier_New_autoFlush_on :
  exists w1,
    (Earlier.init ;; Earlier.New) startWorld = Ok (Some 2%nat, w1) /\
    heap w1 !! 1%nat = Some (mkDabugger [] [] Stdout "" true 5) /\
    heap w1 !! 2%nat = Some (mkDabugger [] [] Stdout "" true 4).
Proof. eexists. split; [reflexivity|]. split; reflexivity. Qed.

(** * Further properties of the package *)

(** ** Lines in auto-flush mode *)

Lemma appendEmpty_as_appendMsg (d : ptr) (site : source) :
  appendEmpty d site = appendMsg d site "".
Proof. reflexivity. Qed.

(** X1: in auto-flush mode Here makes one write to the instance's writer:
    the rendered prefix, which ends in its single space, and a newline,
    with no "- " after it; nothing is added to the pending lines. *)
Theorem Here_autoFlush_marker (w : World) (a : nat) (dd : Dabugger) (site : source) :
  heap w !! a = Some dd -> autoFlush dd = true -> writer dd <> NilWriter ->
  Here (Some a) site w
  = Ok (tt, mkWorld (heap w) (defDabugger w)
              (out w ++ [(writer dd,
                          linePrefix dd +:+ File site +:+ ":" +:+ itoa (Line site) +:+
                          contextString (contexts dd) +:+ " " +:+ nl)])).
Proof.
  intros H Hb Hw. unfold Here. rewrite appendEmpty_as_appendMsg.
  rewrite (appendMsg_autoFlush _ _ _ site "" H Hb Hw).
  unfold written, renderPrefix, suffixOf. simpl (String.eqb "" "").
  cbv iota. do 5 f_equal. rewrite !append_assoc. reflexivity.
Qed.

Lemma Here_autoFlush_marker_witness :
  Here (Some 1%nat) (mkSource "main.go" "main.main" 12) readyWorld
  = Ok (tt, mkWorld (heap readyWorld) (Some 1%nat)
              [(Stdout, "DABUG: main.go:12 " +:+ nl)]).
Proof.
  rewrite (Here_autoFlush_marker readyWorld 1%nat _ _ eq_refl eq_refl
             ltac:(discriminate)).
  reflexivity.
Defined.

(** X2: in auto-flush mode Msg makes one write: the rendered prefix, "- ",
    the formatted text and a newline.  When the formatted text is empty Msg
    does, in either mode, exactly what Here does. *)
Theorem Msg_autoFlush_line (w : World) (a : nat) (dd : Dabugger) (site : source)
    (f : format) (v : list arg) :
  heap w !! a = Some dd ->
  (Sprintf f v = "" -> Msg (Some a) site f v w = Here (Some a) site w) /\
  (autoFlush dd = true -> writer dd <> NilWriter -> Sprintf f v <> "" ->
   Msg (Some a) site f v w
   = Ok (tt, mkWorld (heap w) (defDabugger w)
               (out w ++ [(writer dd,
                           renderPrefix (linePrefix dd) site (contexts dd) +:+
                           "- " +:+ Sprintf f v +:+ nl)]))).
Proof.
  intros H. split.
  - intros E. unfold Msg, Here. now rewrite E, appendEmpty_as_appendMsg.
  - intros Hb Hw Hne. unfold Msg.
    rewrite (appendMsg_autoFlush _ _ _ site _ H Hb Hw).
    unfold written, suffixOf.
    destruct (String.eqb (Sprintf f v) "") eqn:E.
    + apply String.eqb_eq in E. congruence.
    + now rewrite !append_assoc.
Qed.

Lemma Msg_autoFlush_line_witness :
  Msg (Some 1%nat) (mkSource "main.go" "main.main" 12)
      [Lit "n="; VerbD; Lit " s="; VerbS false None] [AInt 42; AString "ok"] readyWorld
  = Ok (tt, mkWorld (heap readyWorld) (Some 1%nat)
              [(Stdout, "DABUG: main.go:12 - n=42 s=ok" +:+ nl)]).
Proof.
  destruct (Msg_autoFlush_line readyWorld 1%nat _ (mkSource "main.go" "main.main" 12)
              [Lit "n="; VerbD; Lit " s="; VerbS false None] [AInt 42; AString "ok"]
              eq_refl) as [_ E].
  rewrite (E eq_refl ltac:(discriminate) ltac:(simpl; discriminate)). reflexivity.
Defined.

Lemma containsNl_uint (d : Decimal.uint) :
  containsNl (NilEmpty.string_of_uint d) = false.
Proof. induction d; simpl; auto. Qed.

Lemma containsNl_itoa (n : Z) : containsNl (itoa n) = false.
Proof.
  unfold itoa, NilZero.string_of_int, NilZero.string_of_uint.
  destruct (Z.to_int n) as [d|d]; destruct d; simpl; auto using containsNl_uint.
Qed.

Lemma containsNl_join (l : list string) :
  Forall (fun s => containsNl s = false) l -> containsNl (String.concat ", " l) = false.
Proof.
  induction 1 as [|x l Hx Hl IH]; [reflexivity|].
  destruct l as [|y l]; [exact Hx|].
  change (String.concat ", " (x :: y :: l)) with (x +:+ ", " +:+ String.concat ", " (y :: l)).
  rewrite !containsNl_append, Hx, IH. reflexivity.
Qed.

Lemma containsNl_contextString (cs : list dcontext) :
  Forall contextClean cs -> containsNl (contextString cs) = false.
Proof.
  intros H. destruct cs as [|c cs]; [reflexivity|].
  unfold contextString. rewrite !containsNl_append.
  rewrite containsNl_join; [reflexivity|].
  apply Forall_forall. intros s Hs. apply list_elem_of_In, in_map_iff in Hs as [x [<- Hx]].
  rewrite Forall_forall in H. destruct (H x) as [Hk Hv]; [now apply list_elem_of_In|].
  unfold kvString. now rewrite !containsNl_append, Hk, Hv.
Qed.

Lemma containsNl_renderPrefix (P : string) (site : source) (cs : list dcontext) :
  containsNl P = false -> containsNl (File site) = false -> Forall contextClean cs ->
  containsNl (renderPrefix P site cs) = false.
Proof.
  intros HP HF Hcs. unfold renderPrefix.
  now rewrite !containsNl_append, HP, HF, containsNl_itoa, containsNl_contextString.
Qed.

Lemma containsNl_suffixOf (m : string) :
  containsNl m = false -> containsNl (suffixOf m) = false.
Proof. intros H. unfold suffixOf. destruct (String.eqb m ""); simpl; auto. Qed.

Lemma io_Writer_eqb_refl (wr : io_Writer) : io_Writer_eqb wr wr = true.
Proof. destruct wr; simpl; auto using Nat.eqb_refl. Qed.

Lemma io_Writer_eqb_eq (a b : io_Writer) : io_Writer_eqb a b = true <-> a = b.
Proof.
  split; [|intros ->; apply io_Writer_eqb_refl].
  destruct a, b; simpl; try discriminate; try reflexivity.
  intros H. apply Nat.eqb_eq in H. now subst.
Qed.

Lemma textOf_app (wr : io_Writer) (o1 o2 : list (io_Writer * string)) :
  textOf wr (o1 ++ o2) = textOf wr o1 +:+ textOf wr o2.
Proof. unfold textOf. now rewrite List.filter_app, map_app, flatten_app. Qed.

Lemma textOf_own (wr : io_Writer) (s : string) : textOf wr [(wr, s)] = s.
Proof. unfold textOf. simpl. rewrite io_Writer_eqb_refl. simpl. apply append_nil_r. Qed.

(** X3: in auto-flush mode a line reaches the writer as its rendered prefix,
    the "- " part if it has a message, and one newline, appended to what the
    writer received before.  On a writer that had received nothing, and with
    no newline inside the prefix, the file name, the contexts or the
    message, the text splits at newlines into exactly two parts: the line
    and an empty rest (what the package's tests check). *)
Theorem autoFlush_one_line (w : World) (a : nat) (dd : Dabugger) (l : line) :
  heap w !! a = Some dd -> autoFlush dd = true -> writer dd <> NilWriter ->
  let text := renderPrefix (linePrefix dd) (src l) (contexts dd) +:+ suffixOf (msg l) in
  exists w1,
    appendLine (Some a) l w = Ok (tt, w1) /\
    heap w1 = heap w /\
    textOf (writer dd) (out w1) = textOf (writer dd) (out w) +:+ text +:+ nl /\
    (textOf (writer dd) (out w) = "" ->
     containsNl (linePrefix dd) = false -> containsNl (File (src l)) = false ->
     Forall contextClean (contexts dd) -> containsNl (msg l) = false ->
     Split_nl (textOf (writer dd) (out w1)) = [text; ""]).
Proof.
  intros H Hb Hw text. eexists. split; [apply (appendLine_autoFlush _ _ _ l H Hb Hw)|].
  split; [reflexivity|].
  assert (E : textOf (writer dd)
                (out (written (writer dd)
                        (renderPrefix (linePrefix dd) (src l) (contexts dd) +:+
                         suffixOf (msg l) +:+ nl) w))
              = textOf (writer dd) (out w) +:+ text +:+ nl).
  { unfold written; simpl. rewrite textOf_app, textOf_own. subst text.
    now rewrite !append_assoc. }
  split; [exact E|].
  intros E0 HP HF Hcs Hm. rewrite E, E0. simpl.
  rewrite <- (append_nil_r nl) at 1.
  rewrite Split_nl_segment; [reflexivity|].
  subst text. rewrite containsNl_append.
  now rewrite containsNl_renderPrefix, containsNl_suffixOf.
Qed.

Lemma autoFlush_one_line_witness :
  exists w1,
    appendLine (Some 0%nat) (mkLine "msg" (mkSource "dabug_test.go" "TestMsg" 30) "")
      (mkWorld [mkDabugger [] [] (Sink 0) "DABUG: " true 5] (Some 0%nat) [])
    = Ok (tt, w1) /\
    Split_nl (textOf (Sink 0) (out w1)) = ["DABUG: dabug_test.go:30 - msg"; ""].
Proof.
  destruct (autoFlush_one_line
              (mkWorld [mkDabugger [] [] (Sink 0) "DABUG: " true 5] (Some 0%nat) [])
              0%nat _ (mkLine "msg" (mkSource "dabug_test.go" "TestMsg" 30) "")
              eq_refl eq_refl ltac:(discriminate))
    as [w1 [E [_ [_ Hs]]]].
  exists w1. split; [exact E|].
  apply Hs; try reflexivity. constructor.
Defined.

(** ** Buffering and flushing together *)

Lemma appendAll_buffered (ls : list line) (w : World) (a : nat) (dd : Dabugger) :
  heap w !! a = Some dd -> autoFlush dd = false ->
  appendAll (Some a) ls w
  = Ok (tt, putInstance a (set_lines dd (lines dd ++ map (stamp dd) ls)) w).
Proof.
  revert w dd. induction ls as [|l ls IH]; intros w dd H Hb; simpl.
  - rewrite app_nil_r, set_lines_same. unfold ret. now rewrite (putInstance_same _ _ _ H).
  - rewrite (bind_Ok _ _ _ _ _ (appendLine_buffered _ _ _ l H Hb)).
    erewrite IH; [|apply (lookup_putInstance _ _ dd), H | exact Hb].
    rewrite putInstance_twice. unfold set_lines, stamp; simpl. now rewrite <- app_assoc.
Qed.

(** X4: with auto-flush off and nothing pending, appending lines writes
    nothing; the Flush that follows makes the one write of the block built
    from these lines, each with the prefix of the moment it was appended,
    and leaves the instance exactly as it was before the lines came. *)
Theorem buffer_then_Flush (w : World) (a : nat) (dd : Dabugger) (ls : list line) :
  heap w !! a = Some dd -> autoFlush dd = false -> lines dd = [] ->
  writer dd <> NilWriter -> ls <> [] ->
  exists w1,
    appendAll (Some a) ls w = Ok (tt, w1) /\
    out w1 = out w /\
    Flush (Some a) w1
    = Ok (tt, mkWorld (heap w) (defDabugger w)
                (out w ++ [(writer dd, block (linePrefix dd) (map (stamp dd) ls))])).
Proof.
  intros H Hb Hl Hw Hne. eexists. split; [apply (appendAll_buffered _ _ _ _ H Hb)|].
  split; [reflexivity|].
  rewrite Hl. simpl app.
  assert (H1 : heap (putInstance a (set_lines dd (map (stamp dd) ls)) w) !! a
               = Some (set_lines dd (map (stamp dd) ls)))
    by (apply (lookup_putInstance _ _ dd), H).
  rewrite (Flush_pending _ _ _ H1); [| |exact Hw].
  - unfold written, putInstance; simpl. rewrite list_insert_insert_eq.
    replace (set_lines (set_lines dd (map (stamp dd) ls)) []) with dd
      by (destruct dd; simpl in *; now subst).
    now rewrite list_insert_id.
  - simpl. destruct ls; [congruence | discriminate].
Qed.

Lemma buffer_then_Flush_witness :
  (appendAll (Some 0%nat) [mkLine "msg" (mkSource "t.go" "T" 68) ""] ;; Flush (Some 0%nat))
    (mkWorld [mkDabugger [] [] (Sink 0) "DABUG: " false 5] (Some 0%nat) [])
  = Ok (tt, mkWorld [mkDabugger [] [] (Sink 0) "DABUG: " false 5] (Some 0%nat)
              [(Sink 0, "DABUG: -----" +:+ nl +:+ "DABUG: t.go:68 - msg" +:+ nl +:+
                        "DABUG: =====" +:+ nl)]).
Proof.
  destruct (buffer_then_Flush
              (mkWorld [mkDabugger [] [] (Sink 0) "DABUG: " false 5] (Some 0%nat) [])
              0%nat _ [mkLine "msg" (mkSource "t.go" "T" 68) ""]
              eq_refl eq_refl eq_refl ltac:(discriminate) ltac:(discriminate))
    as [w1 [E1 [_ E2]]].
  rewrite (bind_Ok _ _ _ _ _ E1), E2. reflexivity.
Defined.

(** X5: the writer is read when Flush runs, not when a line is appended:
    after Writer(w'), the pending lines go to w', in one block, whatever the
    writer was while they were appended. *)
Theorem Writer_then_Flush (w : World) (a : nat) (dd : Dabugger) (wr : io_Writer) :
  heap w !! a = Some dd -> lines dd <> [] -> wr <> NilWriter ->
  (Writer (Some a) wr ;; Flush (Some a)) w
  = Ok (tt, mkWorld (<[a := set_lines (set_writer dd wr) []]> (heap w)) (defDabugger w)
              (out w ++ [(wr, block (linePrefix dd) (lines dd))])).
Proof.
  intros H Hne Hw. unfold Writer.
  rewrite (bind_Ok _ _ _ _ _ (modify_Some _ _ _ _ H)).
  assert (H1 : heap (putInstance a (set_writer dd wr) w) !! a = Some (set_writer dd wr))
    by (apply (lookup_putInstance _ _ dd), H).
  rewrite (Flush_pending _ _ _ H1 Hne Hw).
  unfold written, putInstance; simpl. now rewrite list_insert_insert_eq.
Qed.

Lemma Writer_then_Flush_witness :
  (Writer (Some 0%nat) (Sink 2) ;; Flush (Some 0%nat))
    (mkWorld [mkDabugger [mkLine "m" (mkSource "a.go" "f" 3) "a.go:3 "] [] NilWriter "" false 0]
             (Some 0%nat) [])
  = Ok (tt, mkWorld [mkDabugger [] [] (Sink 2) "" false 0] (Some 0%nat)
              [(Sink 2, "-----" +:+ nl +:+ "a.go:3 - m" +:+ nl +:+ "=====" +:+ nl)]).
Proof.
  rewrite (Writer_then_Flush
             (mkWorld [mkDabugger [mkLine "m" (mkSource "a.go" "f" 3) "a.go:3 "] []
                                  NilWriter "" false 0] (Some 0%nat) [])
             0%nat _ (Sink 2) eq_refl ltac:(discriminate) ltac:(discriminate)).
  reflexivity.
Defined.

(** X6: Flush empties the pending lines and touches nothing else of the
    instance: contexts, line prefix, writer and mode stay, so the next line
    is still rendered with the contexts pushed before the flush. *)
Theorem Flush_keeps_contexts (w : World) (a : nat) (dd : Dabugger) (l : line) :
  heap w !! a = Some dd -> autoFlush dd = false -> writer dd <> NilWriter ->
  exists w1,
    Flush (Some a) w = Ok (tt, w1) /\
    heap w1 !! a = Some (set_lines dd []) /\
    appendLine (Some a) l w1
    = Ok (tt, putInstance a (set_lines dd [stamp dd l]) w1).
Proof.
  intros H Hb Hw.
  assert (Hex : exists w1, Flush (Some a) w = Ok (tt, w1) /\
                           heap w1 !! a = Some (set_lines dd [])).
  { destruct (lines dd) as [|l0 ls0] eqn:E.
    - exists w. split; [apply (Flush_empty _ _ _ H E)|].
      rewrite H. f_equal. destruct dd; simpl in *; now subst.
    - eexists. split; [apply (Flush_pending _ _ _ H); [rewrite E; discriminate | exact Hw]|].
      apply (lookup_putInstance _ _ dd). exact H. }
  destruct Hex as [w1 [E1 H1]]. exists w1. split; [exact E1|]. split; [exact H1|].
  rewrite (appendLine_buffered _ _ _ l H1 Hb). reflexivity.
Qed.

Lemma Flush_keeps_contexts_witness :
  (Flush (Some 0%nat) ;; appendLine (Some 0%nat) (mkLine "next" (mkSource "a.go" "f" 9) ""))
    (mkWorld [mkDabugger [mkLine "m" (mkSource "a.go" "f" 3) "a.go:3 (k:v) "]
                         [mkContext "k" "v"] Stdout "" false 4] (Some 0%nat) [])
  = Ok (tt, mkWorld [mkDabugger [mkLine "next" (mkSource "a.go" "f" 9) "a.go:9 (k:v) "]
                                [mkContext "k" "v"] Stdout "" false 4] (Some 0%nat)
              [(Stdout, "-----" +:+ nl +:+ "a.go:3 (k:v) - m" +:+ nl +:+ "=====" +:+ nl)]).
Proof.
  destruct (Flush_keeps_contexts
              (mkWorld [mkDabugger [mkLine "m" (mkSource "a.go" "f" 3) "a.go:3 (k:v) "]
                                   [mkContext "k" "v"] Stdout "" false 4] (Some 0%nat) [])
              0%nat _ (mkLine "next" (mkSource "a.go" "f" 9) "")
              eq_refl eq_refl ltac:(discriminate))
    as [w1 [E1 [_ E2]]].
  rewrite (bind_Ok _ _ _ _ _ E1), E2.
  vm_compute in E1. injection E1 as <-. reflexivity.
Defined.

(** ** The context stack *)

Lemma putInstance_id (w : World) (a : nat) (dd dd' : Dabugger) :
  heap w !! a = Some dd -> dd' = dd -> putInstance a dd' w = w.
Proof. intros H ->. now apply putInstance_same. Qed.

Lemma set_contexts_same (dd : Dabugger) : set_contexts dd (contexts dd) = dd.
Proof. now destruct dd. Qed.

(** X7: AddContext followed by RemoveTopContext brings the instance, and the
    whole world, back to where it was: the pair never panics and the entry
    removed is the one just pushed. *)
Theorem AddContext_RemoveTopContext (w : World) (a : nat) (dd : Dabugger) (k v : string) :
  heap w !! a = Some dd ->
  (AddContext (Some a) k v ;; RemoveTopContext (Some a)) w = Ok (tt, w).
Proof.
  intros H. unfold AddContext.
  rewrite (bind_Ok _ _ _ _ _ (modify_Some _ _ _ _ H)).
  erewrite RemoveTopContext_nonempty;
    [|apply (lookup_putInstance _ _ dd), H | reflexivity].
  rewrite putInstance_twice. f_equal. f_equal.
  apply (putInstance_id _ _ dd); [exact H|]. unfold set_contexts; simpl.
  now destruct dd.
Qed.

Lemma AddContext_RemoveTopContext_witness :
  (AddContext (Some 1%nat) "hello" "world" ;; RemoveTopContext (Some 1%nat)) readyWorld
  = Ok (tt, readyWorld).
Proof. apply (AddContext_RemoveTopContext readyWorld 1%nat _ "hello" "world" eq_refl). Defined.

Lemma filter_keeps_all (k : string) (cs : list dcontext) :
  (forall c, In c cs -> key c <> k) -> List.filter (keeps k) cs = cs.
Proof.
  induction cs as [|c cs IH]; intros H; simpl; [reflexivity|].
  unfold keeps at 1. replace (String.eqb (key c) k) with false.
  - simpl. rewrite IH; [reflexivity|]. intros c' Hc'. apply H. now right.
  - symmetry. apply String.eqb_neq, H. now left.
Qed.

Lemma RemoveContext_Some (w : World) (a : nat) (dd : Dabugger) (k : string) :
  heap w !! a = Some dd ->
  RemoveContext (Some a) k w
  = Ok (tt, putInstance a (set_contexts dd (List.filter (keeps k) (contexts dd))) w).
Proof.
  intros H. unfold RemoveContext. rewrite (bind_Ok _ _ _ _ _ (load_Some _ _ _ H)).
  rewrite (modify_Some _ _ _ _ H). now rewrite RemoveContext_loop.
Qed.

Lemma filter_keeps_twice (k : string) (cs : list dcontext) :
  List.filter (keeps k) (List.filter (keeps k) cs) = List.filter (keeps k) cs.
Proof.
  apply filter_keeps_all. intros c Hc. apply filter_In in Hc as [_ Hc].
  unfold keeps in Hc. now apply negb_true_iff, String.eqb_neq in Hc.
Qed.

(** X8: RemoveContext with a key that no entry has changes nothing and
    raises nothing; and removing a key a second time changes nothing
    more. *)
Theorem RemoveContext_absent_key (w : World) (a : nat) (dd : Dabugger) (k : string) :
  heap w !! a = Some dd ->
  ((forall c, In c (contexts dd) -> key c <> k) ->
   RemoveContext (Some a) k w = Ok (tt, w)) /\
  (RemoveContext (Some a) k ;; RemoveContext (Some a) k) w = RemoveContext (Some a) k w.
Proof.
  intros H. split.
  - intros Hk. rewrite (RemoveContext_Some _ _ _ _ H), (filter_keeps_all _ _ Hk).
    rewrite set_contexts_same. now rewrite (putInstance_same _ _ _ H).
  - rewrite (bind_Ok _ _ _ _ _ (RemoveContext_Some _ _ _ _ H)).
    erewrite RemoveContext_Some by (apply (lookup_putInstance _ _ dd), H).
    rewrite (RemoveContext_Some _ _ _ _ H), putInstance_twice.
    unfold set_contexts; simpl. now rewrite filter_keeps_twice.
Qed.

Lemma RemoveContext_absent_key_witness :
  RemoveContext (Some 0%nat) "nope"
    (mkWorld [mkDabugger [] [mkContext "hello" "world"] Stdout "" false 4] (Some 0%nat) [])
  = Ok (tt, mkWorld [mkDabugger [] [mkContext "hello" "world"] Stdout "" false 4]
              (Some 0%nat) []).
Proof.
  destruct (RemoveContext_absent_key
              (mkWorld [mkDabugger [] [mkContext "hello" "world"] Stdout "" false 4]
                       (Some 0%nat) [])
              0%nat _ "nope" eq_refl) as [E _].
  apply E. intros c [<-|[]]. discriminate.
Defined.

(** X9: RemoveAllContext empties the stack whatever it holds and is a no-op,
    not a panic, when it is empty already; the next line is rendered
    without the parenthesised part. *)
Theorem RemoveAllContext_clears (w : World) (a : nat) (dd : Dabugger) (l : line) :
  heap w !! a = Some dd ->
  (contexts dd = [] -> RemoveAllContext (Some a) w = Ok (tt, w)) /\
  exists w1,
    RemoveAllContext (Some a) w = Ok (tt, w1) /\
    heap w1 !! a = Some (set_contexts dd []) /\
    genPrefix (Some a) l w1
    = Ok (mkLine (msg l) (src l)
            (linePrefix dd +:+ File (src l) +:+ ":" +:+ itoa (Line (src l)) +:+ " "), w1).
Proof.
  intros H. unfold RemoveAllContext. rewrite (modify_Some _ _ _ _ H). split.
  - intros E. f_equal. f_equal. apply (putInstance_id _ _ dd); [exact H|].
    rewrite <- E. apply set_contexts_same.
  - eexists. split; [reflexivity|].
    assert (H1 : heap (putInstance a (set_contexts dd []) w) !! a = Some (set_contexts dd []))
      by (apply (lookup_putInstance _ _ dd), H).
    split; [exact H1|]. rewrite (genPrefix_Some _ _ _ l H1).
    unfold renderPrefix; simpl. reflexivity.
Qed.

Lemma RemoveAllContext_clears_witness :
  exists w1,
    RemoveAllContext (Some 0%nat)
      (mkWorld [mkDabugger [] [mkContext "a" "1"; mkContext "b" "2"] Stdout "P " false 4]
               (Some 0%nat) []) = Ok (tt, w1) /\
    genPrefix (Some 0%nat) (mkLine "" (mkSource "a.go" "f" 3) "") w1
    = Ok (mkLine "" (mkSource "a.go" "f" 3) "P a.go:3 ", w1).
Proof.
  destruct (RemoveAllContext_clears
              (mkWorld [mkDabugger [] [mkContext "a" "1"; mkContext "b" "2"] Stdout "P " false 4]
                       (Some 0%nat) [])
              0%nat _ (mkLine "" (mkSource "a.go" "f" 3) "") eq_refl)
    as [_ [w1 [E1 [_ E2]]]].
  exists w1. split; [exact E1 | exact E2].
Defined.

(** X10: keys are not deduplicated and removal goes by key alone: pushing
    an entry under a key and then removing that key gives what removing the
    key alone gives, so the new entry and every older entry with the key are
    gone together. *)
Theorem AddContext_RemoveContext (w : World) (a : nat) (dd : Dabugger) (k v : string) :
  heap w !! a = Some dd ->
  (AddContext (Some a) k v ;; RemoveContext (Some a) k) w = RemoveContext (Some a) k w.
Proof.
  intros H. unfold AddContext.
  rewrite (bind_Ok _ _ _ _ _ (modify_Some _ _ _ _ H)).
  erewrite RemoveContext_Some by (apply (lookup_putInstance _ _ dd), H).
  rewrite (RemoveContext_Some _ _ _ _ H), putInstance_twice.
  unfold set_contexts; simpl. rewrite List.filter_app. simpl.
  unfold keeps at 2. simpl. rewrite String.eqb_refl. simpl. now rewrite app_nil_r.
Qed.

Lemma AddContext_RemoveContext_witness :
  (AddContext (Some 0%nat) "k" "new" ;; RemoveContext (Some 0%nat) "k")
    (mkWorld [mkDabugger [] [mkContext "k" "old"; mkContext "j" "1"] Stdout "" false 4]
             (Some 0%nat) [])
  = Ok (tt, mkWorld [mkDabugger [] [mkContext "j" "1"] Stdout "" false 4] (Some 0%nat) []).
Proof.
  rewrite (AddContext_RemoveContext
             (mkWorld [mkDabugger [] [mkContext "k" "old"; mkContext "j" "1"] Stdout "" false 4]
                      (Some 0%nat) [])
             0%nat _ "k" "new" eq_refl).
  reflexivity.
Defined.

(** ** Nil receivers and the context carrier *)

Lemma Split_nl_nonempty (s : string) : Split_nl s <> [].
Proof.
  induction s as [|c s IH]; simpl; [discriminate|].
  destruct (Ascii.eqb c (ascii_of_nat 10)); [discriminate|].
  destruct (Split_nl s); [congruence | discriminate].
Qed.

Lemma invoke_nil (m : method) (w : World) : invoke None m w = Panic nilDeref.
Proof.
  destruct m; try reflexivity.
  unfold invoke, Stack. destruct (Split_nl trace) eqn:E.
  - now apply Split_nl_nonempty in E.
  - reflexivity.
Qed.

(** X11: every method called on a nil pointer panics with a nil
    dereference, in every state of the process; none of them tests its
    receiver. *)
Theorem nil_receiver_panics (m : method) (w : World) :
  invoke None m w = Panic nilDeref.
Proof. apply invoke_nil. Qed.

Lemma Value_skips_foreign (more ctx : goContext) :
  (forall kv, In kv more -> fst kv <> dabuggerContextKey) ->
  Value (more ++ ctx) dabuggerContextKey = Value ctx dabuggerContextKey.
Proof.
  induction more as [|[k v] more IH]; intros H; simpl; [reflexivity|].
  destruct k as [|n].
  - exfalso. apply (H (dabuggerContextKey, v)); [now left | reflexivity].
  - simpl. apply IH. intros kv Hkv. apply H. now right.
Qed.

(** X12: FromContext gives back the pointer that the most recent
    StoreInContext put in, with true, also when that pointer is nil;
    values other packages add to the context afterwards and instances
    stored earlier do not change the answer. *)
Theorem FromContext_StoreInContext (d : ptr) (ctx more : goContext) :
  (forall kv, In kv more -> fst kv <> dabuggerContextKey) ->
  FromContext (more ++ StoreInContext d ctx) = (d, true).
Proof.
  intros H. unfold FromContext. rewrite (Value_skips_foreign _ _ H). reflexivity.
Qed.

Lemma FromContext_StoreInContext_witness :
  FromContext (WithValue (StoreInContext (Some 2%nat) (StoreInContext (Some 1%nat) []))
                         (foreignKey 7) (foreignValue 0))
  = (Some 2%nat, true).
Proof.
  apply (FromContext_StoreInContext (Some 2%nat) (StoreInContext (Some 1%nat) [])
           [(foreignKey 7, foreignValue 0)]).
  intros kv [<-|[]]. discriminate.
Defined.

(** X13: on a context in which no instance was stored FromContext answers
    nil and false, and a method called on that pointer panics: the caller
    has to test the flag. *)
Theorem FromContext_not_found (ctx : goContext) (m : method) (w : World) :
  (forall kv, In kv ctx -> fst kv <> dabuggerContextKey) ->
  FromContext ctx = (None, false) /\
  invoke (fst (FromContext ctx)) m w = Panic nilDeref.
Proof.
  intros H.
  assert (E : FromContext ctx = (None, false)).
  { unfold FromContext. rewrite <- (app_nil_r ctx), (Value_skips_foreign _ _ H).
    reflexivity. }
  split; [exact E|]. rewrite E. apply invoke_nil.
Qed.

Lemma FromContext_not_found_witness :
  FromContext [(foreignKey 1, foreignValue 5)] = (None, false) /\
  invoke (fst (FromContext [(foreignKey 1, foreignValue 5)])) MFlush readyWorld
  = Panic nilDeref.
Proof.
  apply (FromContext_not_found [(foreignKey 1, foreignValue 5)] MFlush readyWorld).
  intros kv [<-|[]]. discriminate.
Defined.

(** ** Objs *)

Lemma Objs_loop_numbered {T} (g : T -> string) (things : list T) (i : Z)
    (msgs : list string) :
  Objs_loop g i things msgs
  = msgs ++ imap (fun j t => "[" +:+ itoa (i + Z.of_nat j) +:+ "] " +:+ g t) things.
Proof.
  revert i msgs. induction things as [|t things IH]; intros i msgs; simpl.
  - now rewrite app_nil_r.
  - rewrite IH, <- app_assoc. simpl. rewrite append_nil_r, Z.add_0_r.
    do 2 f_equal. apply imap_ext. intros j x _. simpl.
    do 3 f_equal. lia.
Qed.

(** X14: Objs logs one message: for the i-th value, counting from 0, the
    text "[i] " followed by its Go-syntax rendering, the pieces joined by
    ", " in the order of the arguments.  Without arguments the message is
    empty and Objs does what Here does. *)
Theorem Objs_message {T} (g : T -> string) (d : ptr) (site : source) (things : list T)
    (w : World) :
  Objs g d site things w
  = appendMsg d site
      (String.concat ", "
         (imap (fun i t => "[" +:+ itoa (Z.of_nat i) +:+ "] " +:+ g t) things)) w /\
  Objs g d site [] w = Here d site w.
Proof.
  split; [|reflexivity].
  unfold Objs, Join. now rewrite Objs_loop_numbered.
Qed.

(** ** The file name of a call site *)

Lemma stripPrefix_app (p rest : string) : stripPrefix p (p +:+ rest) = Some rest.
Proof.
  induction p as [|c p IH]; simpl; [reflexivity|].
  now rewrite Ascii.eqb_refl.
Qed.

(** X15: getSource cuts the directory off the file name as text.  A file
    below the directory is shown relative to it; any file whose path merely
    starts with the text of the directory loses that text, and then one
    leading slash if there is one; a file whose path does not start with it
    keeps its path and loses only one leading slash.  Function and line
    number are those of the frame. *)
Theorem trimmedSource_file (dir : string) (fn : string) (ln : Z) :
  (forall rel,
      trimmedSource (mkFrame (dir +:+ "/" +:+ rel) fn ln) dir = mkSource rel fn ln) /\
  (forall rest,
      trimmedSource (mkFrame (dir +:+ rest) fn ln) dir
      = mkSource (TrimPrefix rest "/") fn ln) /\
  (forall file,
      stripPrefix dir file = None ->
      trimmedSource (mkFrame file fn ln) dir = mkSource (TrimPrefix file "/") fn ln).
Proof.
  assert (E : forall rest, TrimPrefix (dir +:+ rest) dir = rest)
    by (intros rest; unfold TrimPrefix; now rewrite stripPrefix_app).
  split; [|split].
  - intros rel. unfold trimmedSource; simpl. now rewrite E.
  - intros rest. unfold trimmedSource; simpl. now rewrite E.
  - intros file H. unfold trimmedSource; simpl. unfold TrimPrefix at 2. now rewrite H.
Qed.

Lemma trimmedSource_file_witness :
  trimmedSource (mkFrame "/home/u/proj/cmd/main.go" "main.main" 12) "/home/u/proj"
  = mkSource "cmd/main.go" "main.main" 12 /\
  trimmedSource (mkFrame "/home/u/project2/x.go" "p.f" 3) "/home/u/proj"
  = mkSource "ect2/x.go" "p.f" 3 /\
  trimmedSource (mkFrame "/srv/app/x.go" "p.f" 3) "/home/u/proj"
  = mkSource "srv/app/x.go" "p.f" 3.
Proof.
  destruct (trimmedSource_file "/home/u/proj" "main.main" 12) as [H1 _].
  destruct (trimmedSource_file "/home/u/proj" "p.f" 3) as [_ [H2 H3]].
  split; [apply (H1 "cmd/main.go")|].
  split; [apply (H2 "ect2/x.go") | apply (H3 "/srv/app/x.go"); reflexivity].
Defined.

(** ** Stack on a trace that ends in a newline *)

Lemma Split_nl_trailing (s : string) : Split_nl (s +:+ nl) = Split_nl s ++ [""].
Proof.
  induction s as [|c s IH]; simpl; [reflexivity|].
  destruct (Ascii.eqb c (ascii_of_nat 10)); rewrite IH; [reflexivity|].
  destruct (Split_nl s) eqn:E; [now apply Split_nl_nonempty in E | reflexivity].
Qed.

(** X16: the text of a stack trace ends in a newline, so a full dump
    (n <= 0) logs, after the lines of the trace, one more line with an
    empty message, which renders as a bare marker. *)
Theorem Stack_trailing_marker (w : World) (a : nat) (dd : Dabugger) (site : source)
    (t : string) (num : Z) :
  heap w !! a = Some dd -> autoFlush dd = false -> num <= 0 ->
  Stack (Some a) site (t +:+ nl) num w
  = Ok (tt, putInstance a
              (set_lines dd (lines dd ++ map (lineOf dd site) (Split_nl t)
                                      ++ [lineOf dd site ""])) w).
Proof.
  intros H Hb Hn. unfold Stack. rewrite Stack_loop_all by exact Hn.
  rewrite (emitAll_buffered _ _ _ _ site H Hb), Split_nl_trailing, map_app.
  reflexivity.
Qed.

Lemma Stack_trailing_marker_witness :
  Stack (Some 0%nat) (mkSource "a.go" "f" 3) ("goroutine 1 [running]:" +:+ nl) 0
        (mkWorld [mkDabugger [] [] Stdout "" false 4] (Some 0%nat) [])
  = Ok (tt, mkWorld [mkDabugger [mkLine "goroutine 1 [running]:" (mkSource "a.go" "f" 3) "a.go:3 ";
                                 mkLine "" (mkSource "a.go" "f" 3) "a.go:3 "]
                                [] Stdout "" false 4] (Some 0%nat) []).
Proof.
  rewrite (Stack_trailing_marker
             (mkWorld [mkDabugger [] [] Stdout "" false 4] (Some 0%nat) [])
             0%nat _ (mkSource "a.go" "f" 3) "goroutine 1 [running]:" 0
             eq_refl eq_refl ltac:(discriminate)).
  reflexivity.
Defined.

(** ** What a method call can change *)

Lemma load_None (w : World) (b : nat) :
  heap w !! b = None -> load (Some b) w = Panic nilDeref.
Proof. intros H. unfold load. now rewrite H. Qed.

Lemma invoke_dangling (w : World) (b : nat) (m : method) :
  heap w !! b = None -> invoke (Some b) m w = Panic nilDeref.
Proof.
  intros H. pose proof (load_None _ _ H) as L.
  destruct m; simpl;
    unfold Writer, LinePrefix, AutoFlush, Msg, Here, AddContext, RemoveContext,
           RemoveAllContext, RemoveTopContext, Flush, appendEmpty, appendMsg,
           getSource, modify;
    rewrite ?(bind_Panic _ _ _ _ (bind_Panic _ _ _ _ L)), ?(bind_Panic _ _ _ _ L);
    try reflexivity.
  unfold Stack. destruct (Split_nl trace) eqn:E; [now apply Split_nl_nonempty in E|].
  simpl. unfold appendMsg, getSource.
  now rewrite (bind_Panic _ _ _ _ (bind_Panic _ _ _ _ (bind_Panic _ _ _ _ L))).
Qed.

Lemma Flush_nil_writer (w : World) (b : nat) (dd : Dabugger) :
  heap w !! b = Some dd -> lines dd <> [] -> writer dd = NilWriter ->
  Flush (Some b) w = Panic nilDeref.
Proof.
  intros H Hne Hw. unfold Flush. rewrite (bind_Ok _ _ _ _ _ (load_Some _ _ _ H)).
  destruct (lines dd) as [|l0 ls0] eqn:E; [congruence|].
  cbn [length Nat.eqb]. rewrite Hw. reflexivity.
Qed.

Lemma appendLine_nil_writer (w : World) (b : nat) (dd : Dabugger) (l : line) :
  heap w !! b = Some dd -> autoFlush dd = true -> writer dd = NilWriter ->
  appendLine (Some b) l w = Panic nilDeref.
Proof.
  intros H Hb Hw. unfold appendLine.
  rewrite (bind_Ok _ _ _ _ _ (genPrefix_Some _ _ _ _ H)).
  rewrite (bind_Ok _ _ _ _ _ (load_Some _ _ _ H)). rewrite Hb.
  unfold flushLine. rewrite (bind_Ok _ _ _ _ _ (load_Some _ _ _ H)).
  rewrite Hw. reflexivity.
Qed.

Lemma Flush_cases (w w' : World) (b : nat) (dd : Dabugger) :
  heap w !! b = Some dd -> Flush (Some b) w = Ok (tt, w') ->
  (lines dd = [] /\ w' = w) \/
  (lines dd <> [] /\ writer dd <> NilWriter /\
   w' = putInstance b (set_lines dd [])
          (written (writer dd) (block (linePrefix dd) (lines dd)) w)).
Proof.
  intros H R. destruct (lines dd) as [|l0 ls0] eqn:E.
  - left. rewrite (Flush_empty _ _ _ H E) in R. now injection R as <-.
  - right. assert (Hne : lines dd <> []) by (rewrite E; discriminate).
    destruct (writer dd) eqn:Ew.
    + rewrite (Flush_nil_writer _ _ _ H Hne Ew) in R. discriminate.
    + rewrite (Flush_pending _ _ _ H Hne) in R by (rewrite Ew; discriminate).
      injection R as <-. rewrite Ew, E. repeat split; discriminate.
    + rewrite (Flush_pending _ _ _ H Hne) in R by (rewrite Ew; discriminate).
      injection R as <-. rewrite Ew, E. repeat split; discriminate.
Qed.

Lemma appendLine_cases (w w' : World) (b : nat) (dd : Dabugger) (l : line) :
  heap w !! b = Some dd -> appendLine (Some b) l w = Ok (tt, w') ->
  (autoFlush dd = false /\
   w' = putInstance b (set_lines dd (lines dd ++ [stamp dd l])) w) \/
  (autoFlush dd = true /\ writer dd <> NilWriter /\
   w' = written (writer dd)
          (renderPrefix (linePrefix dd) (src l) (contexts dd) +:+ suffixOf (msg l) +:+ nl) w).
Proof.
  intros H R. destruct (autoFlush dd) eqn:Hb.
  - right. destruct (writer dd) eqn:Ew.
    + rewrite (appendLine_nil_writer _ _ _ l H Hb Ew) in R. discriminate.
    + rewrite (appendLine_autoFlush _ _ _ l H Hb) in R by (rewrite Ew; discriminate).
      injection R as <-. rewrite Ew. repeat split; discriminate.
    + rewrite (appendLine_autoFlush _ _ _ l H Hb) in R by (rewrite Ew; discriminate).
      injection R as <-. rewrite Ew. repeat split; discriminate.
  - left. rewrite (appendLine_buffered _ _ _ l H Hb) in R. now injection R as <-.
Qed.

(** The shape of every world a call on instance [b] can lead to: the cell
    of [b] replaced, writes to the writer of [b] added, the rest as it
    was. *)
Lemma appendLine_shape (w w' : World) (b : nat) (dd : Dabugger) (l : line) :
  heap w !! b = Some dd -> appendLine (Some b) l w = Ok (tt, w') ->
  exists ls news,
    w' = mkWorld (<[b := set_lines dd (lines dd ++ ls)]> (heap w)) (defDabugger w)
                 (out w ++ news) /\
    Forall (fun e => fst e = writer dd) news /\
    (autoFlush dd = true -> ls = []).
Proof.
  intros H R. destruct (appendLine_cases _ _ _ _ _ H R) as [[Hb ->]|[Hb [Hw ->]]].
  - exists [stamp dd l], []. rewrite app_nil_r. split; [reflexivity|].
    split; [constructor | congruence].
  - exists [], [(writer dd, renderPrefix (linePrefix dd) (src l) (contexts dd) +:+
                            suffixOf (msg l) +:+ nl)].
    rewrite app_nil_r, set_lines_same, list_insert_id by exact H.
    split; [reflexivity|]. split; [repeat constructor | reflexivity].
Qed.

Lemma emitAll_shape (ms : list string) (w w' : World) (b : nat) (dd : Dabugger)
    (site : source) :
  heap w !! b = Some dd -> emitAll (Some b) site ms w = Ok (tt, w') ->
  exists ls news,
    w' = mkWorld (<[b := set_lines dd (lines dd ++ ls)]> (heap w)) (defDabugger w)
                 (out w ++ news) /\
    Forall (fun e => fst e = writer dd) news /\
    (autoFlush dd = true -> ls = []).
Proof.
  revert w dd. induction ms as [|m ms IH]; intros w dd H R; simpl in R.
  - injection R as <-. exists [], [].
    rewrite !app_nil_r, set_lines_same, list_insert_id by exact H.
    split; [now destruct w|]. split; [constructor | reflexivity].
  - unfold bind in R.
    destruct (appendMsg (Some b) site m w) as [[[] w1]|] eqn:E1; [|discriminate].
    unfold appendMsg, getSource in E1.
    rewrite (bind_Ok _ _ _ _ site (bind_Ok _ _ _ _ _ (load_Some _ _ _ H))) in E1.
    destruct (appendLine_shape _ _ _ _ _ H E1) as [ls1 [n1 [-> [F1 A1]]]].
    assert (H1 : (<[b := set_lines dd (lines dd ++ ls1)]> (heap w)) !! b
                 = Some (set_lines dd (lines dd ++ ls1)))
      by (apply list_lookup_insert_eq; eapply lookup_lt_Some, H).
    destruct (IH (mkWorld (<[b := set_lines dd (lines dd ++ ls1)]> (heap w))
                          (defDabugger w) (out w ++ n1)) _ H1 R)
      as [ls2 [n2 [-> [F2 A2]]]].
    exists (ls1 ++ ls2), (n1 ++ n2). simpl.
    rewrite list_insert_insert_eq, <- !app_assoc. split; [reflexivity|].
    split; [apply Forall_app; split; assumption|].
    intros Hb. now rewrite (A1 Hb), (A2 Hb).
Qed.

Lemma Stack_as_emitAll (d : ptr) (site : source) (trace : string) (num : Z) (w : World) :
  Stack d site trace num w
  = emitAll d site
      (if num <=? 0 then Split_nl trace else take (Z.to_nat num) (Split_nl trace)) w.
Proof.
  unfold Stack. destruct (num <=? 0) eqn:En.
  - apply Stack_loop_all. now apply Z.leb_le.
  - apply Z.leb_gt in En. rewrite Stack_loop_first by lia. now rewrite Z.sub_0_r.
Qed.

Lemma invoke_shape (w w' : World) (b : nat) (m : method) :
  invoke (Some b) m w = Ok (tt, w') ->
  exists dd dd' news,
    heap w !! b = Some dd /\
    w' = mkWorld (<[b := dd']> (heap w)) (defDabugger w) (out w ++ news) /\
    Forall (fun e => fst e = writer dd) news /\
    (defDabugger w = Some b -> (autoFlush dd = true -> lines dd = []) ->
     autoFlush dd' = true -> lines dd' = []) /\
    ((exists ls, lines dd' = lines dd ++ ls) \/
     (lines dd <> [] /\ lines dd' = [] /\
      news = [(writer dd, block (linePrefix dd) (lines dd))])).
Proof.
  intros R. destruct (heap w !! b) as [dd|] eqn:H;
    [|rewrite (invoke_dangling _ _ _ H) in R; discriminate].
  exists dd.
  assert (Hput : forall d', lines d' = lines dd -> autoFlush d' = autoFlush dd ->
            Ok (tt, putInstance b d' w) = Ok (tt, w') ->
            exists dd' news,
              Some dd = Some dd /\
              w' = mkWorld (<[b := dd']> (heap w)) (defDabugger w) (out w ++ news) /\
              Forall (fun e => fst e = writer dd) news /\
              (defDabugger w = Some b -> (autoFlush dd = true -> lines dd = []) ->
               autoFlush dd' = true -> lines dd' = []) /\
              ((exists ls, lines dd' = lines dd ++ ls) \/
               (lines dd <> [] /\ lines dd' = [] /\
                news = [(writer dd, block (linePrefix dd) (lines dd))]))).
  { intros d' Hl Ha E. injection E as <-. exists d', []. rewrite app_nil_r.
    split; [reflexivity|]. split; [reflexivity|]. split; [constructor|]. split.
    - intros _ Hinv Hd'. rewrite Hl. apply Hinv. congruence.
    - left. exists []. now rewrite app_nil_r. }
  assert (Hlines : forall ls news,
            w' = mkWorld (<[b := set_lines dd (lines dd ++ ls)]> (heap w)) (defDabugger w)
                         (out w ++ news) ->
            Forall (fun e => fst e = writer dd) news ->
            (autoFlush dd = true -> ls = []) ->
            exists dd' news,
              Some dd = Some dd /\
              w' = mkWorld (<[b := dd']> (heap w)) (defDabugger w) (out w ++ news) /\
              Forall (fun e => fst e = writer dd) news /\
              (defDabugger w = Some b -> (autoFlush dd = true -> lines dd = []) ->
               autoFlush dd' = true -> lines dd' = []) /\
              ((exists ls, lines dd' = lines dd ++ ls) \/
               (lines dd <> [] /\ lines dd' = [] /\
                news = [(writer dd, block (linePrefix dd) (lines dd))]))).
  { intros ls news -> F A. exists (set_lines dd (lines dd ++ ls)), news.
    split; [reflexivity|]. split; [reflexivity|]. split; [exact F|]. split.
    - intros _ Hinv Hd'. simpl in *. now rewrite (A Hd'), app_nil_r, (Hinv Hd').
    - left. now exists ls. }
  destruct m; simpl in R.
  - rewrite Stack_as_emitAll in R.
    destruct (emitAll_shape _ _ _ _ _ _ H R) as [ls [news [E [F A]]]].
    exact (Hlines ls news E F A).
  - unfold Writer in R. rewrite (modify_Some _ _ _ _ H) in R.
    (eapply Hput; [| |exact R]; reflexivity).
  - unfold LinePrefix in R. rewrite (modify_Some _ _ _ _ H) in R.
    (eapply Hput; [| |exact R]; reflexivity).
  - unfold AutoFlush in R. rewrite (bind_Ok _ _ _ _ _ (modify_Some _ _ _ _ H)) in R.
    set (ddb := set_autoFlush dd flush) in *.
    assert (H1 : heap (putInstance b ddb w) !! b = Some ddb)
      by (apply (lookup_putInstance _ _ dd), H).
    unfold getDef in R. unfold bind at 1 in R. cbn [putInstance defDabugger] in R.
    fold (putInstance b ddb w) in R. unfold bind in R.
    destruct (load (defDabugger w) (putInstance b ddb w)) as [[ddef w1]|] eqn:L;
      [|discriminate].
    assert (w1 = putInstance b ddb w) as ->.
    { unfold load in L. destruct (defDabugger w); [|discriminate].
      destruct (heap (putInstance b ddb w) !! n); [|discriminate]. now injection L. }
    destruct (0 <? Z.of_nat (length (lines ddef))) eqn:Hp.
    + destruct (Flush_cases _ _ _ _ H1 R) as [[Hl ->]|[Hl [Hw ->]]].
      * exists ddb, []. rewrite app_nil_r. split; [reflexivity|].
        split; [reflexivity|]. split; [constructor|]. split.
        -- intros _ _ _. exact Hl.
        -- left. exists []. now rewrite app_nil_r.
      * exists (set_lines ddb []), [(writer dd, block (linePrefix ddb) (lines ddb))].
        split; [reflexivity|]. unfold putInstance, written; simpl.
        rewrite list_insert_insert_eq. split; [reflexivity|].
        split; [repeat constructor|]. split; [reflexivity|].
        right. split; [exact Hl|]. split; reflexivity.
    + unfold ret in R. injection R as <-. exists ddb, []. rewrite app_nil_r.
      split; [reflexivity|]. split; [reflexivity|]. split; [constructor|]. split.
      * intros Hd _ _. rewrite Hd in L. rewrite (load_Some _ _ _ H1) in L.
        injection L as <-. apply Z.ltb_ge in Hp.
        destruct (lines ddb); [reflexivity | simpl in Hp; lia].
      * left. exists []. now rewrite app_nil_r.
  - unfold Msg, appendMsg, getSource in R.
    rewrite (bind_Ok _ _ _ _ site (bind_Ok _ _ _ _ _ (load_Some _ _ _ H))) in R.
    destruct (appendLine_shape _ _ _ _ _ H R) as [ls [news [E [F A]]]].
    exact (Hlines ls news E F A).
  - unfold Here, appendEmpty, getSource in R.
    rewrite (bind_Ok _ _ _ _ site (bind_Ok _ _ _ _ _ (load_Some _ _ _ H))) in R.
    destruct (appendLine_shape _ _ _ _ _ H R) as [ls [news [E [F A]]]].
    exact (Hlines ls news E F A).
  - unfold AddContext in R. rewrite (modify_Some _ _ _ _ H) in R.
    (eapply Hput; [| |exact R]; reflexivity).
  - rewrite (RemoveContext_Some _ _ _ _ H) in R.
    (eapply Hput; [| |exact R]; reflexivity).
  - unfold RemoveAllContext in R. rewrite (modify_Some _ _ _ _ H) in R.
    (eapply Hput; [| |exact R]; reflexivity).
  - unfold RemoveTopContext in R. rewrite (bind_Ok _ _ _ _ _ (load_Some _ _ _ H)) in R.
    destruct (Z.of_nat (length (contexts dd)) - 1 <? 0); [discriminate|].
    rewrite (modify_Some _ _ _ _ H) in R.
    (eapply Hput; [| |exact R]; reflexivity).
  - destruct (Flush_cases _ _ _ _ H R) as [[Hl ->]|[Hl [Hw ->]]].
    + exists dd, []. rewrite app_nil_r, list_insert_id by exact H.
      split; [reflexivity|]. split; [now destruct w|]. split; [constructor|]. split.
      * intros _ _ _. exact Hl.
      * left. exists []. now rewrite app_nil_r.
    + exists (set_lines dd []), [(writer dd, block (linePrefix dd) (lines dd))].
      split; [reflexivity|]. split; [reflexivity|].
      split; [repeat constructor|]. split; [reflexivity|].
      right. split; [exact Hl|]. split; reflexivity.
Qed.

(** X17: a method call that returns changes no instance but its receiver:
    every other instance is what it was, none is added or lost, and the
    package variable still points where it pointed. *)
Theorem invoke_touches_receiver_only (w w' : World) (b : nat) (m : method) :
  invoke (Some b) m w = Ok (tt, w') ->
  defDabugger w' = defDabugger w /\
  length (heap w') = length (heap w) /\
  forall a, a <> b -> heap w' !! a = heap w !! a.
Proof.
  intros R. destruct (invoke_shape _ _ _ _ R) as [dd [dd' [news [_ [-> _]]]]].
  simpl. split; [reflexivity|]. split; [apply length_insert|].
  intros a Ha. apply list_lookup_insert_ne. congruence.
Qed.

Lemma invoke_touches_receiver_only_witness :
  exists w1,
    invoke (Some 1%nat) (MAutoFlush true)
      (mkWorld [zeroDabugger;
                mkDabugger [mkLine "m" (mkSource "a.go" "f" 3) "a.go:3 "] [] Stdout "" false 5;
                mkDabugger [mkLine "n" (mkSource "b.go" "g" 4) "b.go:4 "] [] (Sink 1) "" false 4]
               (Some 1%nat) []) = Ok (tt, w1) /\
    heap w1 !! 2%nat
    = Some (mkDabugger [mkLine "n" (mkSource "b.go" "g" 4) "b.go:4 "] [] (Sink 1) "" false 4).
Proof.
  eexists. split; [vm_compute; reflexivity|].
  match goal with
  | |- heap ?w1 !! _ = _ =>
      destruct (invoke_touches_receiver_only
                  (mkWorld [zeroDabugger;
                            mkDabugger [mkLine "m" (mkSource "a.go" "f" 3) "a.go:3 "] []
                                       Stdout "" false 5;
                            mkDabugger [mkLine "n" (mkSource "b.go" "g" 4) "b.go:4 "] []
                                       (Sink 1) "" false 4] (Some 1%nat) [])
                  w1 1%nat (MAutoFlush true) eq_refl) as [_ [_ Hother]]
  end.
  rewrite Hother by discriminate. reflexivity.
Defined.

Lemma textOf_other (wr wr0 : io_Writer) (news : list (io_Writer * string)) :
  Forall (fun e => fst e = wr0) news -> wr <> wr0 -> textOf wr news = "".
Proof.
  intros F Hwr. unfold textOf. induction F as [|[wr' s] news Hx F IH]; [reflexivity|].
  simpl in *. subst wr'.
  destruct (io_Writer_eqb wr0 wr) eqn:E; [|exact IH].
  apply io_Writer_eqb_eq in E. congruence.
Qed.

(** X18: what a method call writes goes to the writer its receiver has
    when the call starts, after everything written before, which stays as
    it is; nothing is ever written to the writer of another instance. *)
Theorem invoke_writes_to_own_writer (w w' : World) (b : nat) (m : method) :
  invoke (Some b) m w = Ok (tt, w') ->
  exists dd news,
    heap w !! b = Some dd /\
    out w' = out w ++ news /\
    Forall (fun e => fst e = writer dd) news /\
    forall wr, wr <> writer dd -> textOf wr (out w') = textOf wr (out w).
Proof.
  intros R. destruct (invoke_shape _ _ _ _ R) as [dd [dd' [news [H [-> [F _]]]]]].
  exists dd, news. simpl. split; [exact H|]. split; [reflexivity|]. split; [exact F|].
  intros wr Hwr. rewrite textOf_app, (textOf_other _ _ _ F Hwr).
  apply append_nil_r.
Qed.

Lemma invoke_writes_to_own_writer_witness :
  exists w1,
    invoke (Some 2%nat) MFlush
      (mkWorld [zeroDabugger; mkDabugger [] [] Stdout "" true 5;
                mkDabugger [mkLine "n" (mkSource "b.go" "g" 4) "b.go:4 "] [] (Sink 1) "" false 4]
               (Some 1%nat) [(Stdout, "earlier" +:+ nl)]) = Ok (tt, w1) /\
    textOf Stdout (out w1) = "earlier" +:+ nl.
Proof.
  eexists. split; [vm_compute; reflexivity|].
  match goal with
  | |- textOf _ (out ?w1) = _ =>
      destruct (invoke_writes_to_own_writer
                  (mkWorld [zeroDabugger; mkDabugger [] [] Stdout "" true 5;
                            mkDabugger [mkLine "n" (mkSource "b.go" "g" 4) "b.go:4 "] []
                                       (Sink 1) "" false 4]
                           (Some 1%nat) [(Stdout, "earlier" +:+ nl)])
                  w1 2%nat MFlush eq_refl) as [dd [news [H [_ [_ Hother]]]]]
  end.
  injection H as <-. rewrite Hother by discriminate. reflexivity.
Defined.

(** ** The default instance never holds lines while auto-flush is on *)

Lemma New_shape (w w' : World) (p : ptr) :
  New w = Ok (p, w') ->
  exists d, w' = mkWorld (heap w ++ [d]) (defDabugger w) (out w).
Proof.
  unfold New, bind, getDef, alloc, ret. intros R.
  destruct (defDabugger w) as [c|] eqn:Hd.
  - destruct (load (Some c) w) as [[dd w1]|] eqn:L; [|discriminate].
    assert (w1 = w) as ->.
    { unfold load in L. destruct (heap w !! c); [|discriminate]. now injection L. }
    injection R as _ <-. eexists. rewrite Hd. reflexivity.
  - injection R as _ <-. eexists. rewrite Hd. reflexivity.
Qed.

Lemma step_keeps_defaultDrained (c : call) (w w' : World) :
  defaultDrained w -> step c w = Ok (tt, w') -> defaultDrained w'.
Proof.
  intros [a [dd [Hd [H Hinv]]]] R. destruct c as [[b|] m|]; simpl in R.
  - destruct (invoke_shape _ _ _ _ R) as [db [db' [news [Hb [-> [_ [Hkeep _]]]]]]].
    destruct (Nat.eq_dec a b) as [->|Hne].
    + exists b, db'. simpl. split; [exact Hd|].
      split; [apply list_lookup_insert_eq; eapply lookup_lt_Some, Hb|].
      apply Hkeep; [exact Hd|]. rewrite H in Hb. injection Hb as <-. exact Hinv.
    + exists a, dd. simpl. split; [exact Hd|].
      split; [rewrite list_lookup_insert_ne by congruence; exact H | exact Hinv].
  - rewrite invoke_nil in R. discriminate.
  - unfold bind in R. destruct (New w) as [[p w1]|] eqn:E; [|discriminate].
    unfold ret in R. injection R as <-.
    destruct (New_shape _ _ _ E) as [d ->].
    exists a, dd. simpl. split; [exact Hd|]. split; [|exact Hinv].
    rewrite lookup_app_l by (eapply lookup_lt_Some, H). exact H.
Qed.

(** X19: once the package is initialised, the default instance has nothing
    pending while its auto-flush is on, and no sequence of calls that
    returns (methods on any instance and New, in any order) ever changes
    that. *)
Theorem default_instance_drained (cs : list call) (w' : World) :
  init startWorld = Ok (tt, readyWorld) /\
  (run cs readyWorld = Ok (tt, w') -> defaultDrained w').
Proof.
  split; [reflexivity|].
  assert (Hready : defaultDrained readyWorld).
  { exists 1%nat, (mkDabugger [] [] Stdout "DABUG: " true 5). repeat split. }
  revert Hready. generalize readyWorld as w.
  induction cs as [|c cs IH]; intros w Hw R; simpl in R.
  - injection R as <-. exact Hw.
  - unfold bind in R. destruct (step c w) as [[[] w1]|] eqn:E; [|discriminate].
    apply (IH w1); [|exact R]. apply (step_keeps_defaultDrained _ _ _ Hw E).
Qed.

Lemma default_instance_drained_witness :
  exists w',
    run [On (Some 1%nat) (MAutoFlush false);
         On (Some 1%nat) (MMsg (mkSource "a.go" "f" 3) [Lit "msg"] []);
         CallNew;
         On (Some 2%nat) (MMsg (mkSource "a.go" "f" 4) [Lit "other"] []);
         On (Some 2%nat) (MAutoFlush true)] readyWorld = Ok (tt, w') /\
    heap w' !! 1%nat
    = Some (mkDabugger [mkLine "msg" (mkSource "a.go" "f" 3) "DABUG: a.go:3 "] []
                       Stdout "DABUG: " false 5) /\
    defaultDrained w'.
Proof.
  eexists. split; [vm_compute; reflexivity|]. split; [reflexivity|].
  match goal with
  | |- defaultDrained ?w' =>
      destruct (default_instance_drained
                  [On (Some 1%nat) (MAutoFlush false);
                   On (Some 1%nat) (MMsg (mkSource "a.go" "f" 3) [Lit "msg"] []);
                   CallNew;
                   On (Some 2%nat) (MMsg (mkSource "a.go" "f" 4) [Lit "other"] []);
                   On (Some 2%nat) (MAutoFlush true)] w') as [_ Hrun]
  end.
  apply Hrun. reflexivity.
Defined.

(** X20: AutoFlush on an instance other than the default one flushes that
    instance's pending lines exactly when the default instance has lines
    pending, whichever flag is passed; the lines of the default instance
    stay pending. *)
Theorem AutoFlush_follows_default_buffer
    (w : World) (a def : nat) (dd ddef : Dabugger) (flush : bool) :
  defDabugger w = Some def -> a <> def ->
  heap w !! def = Some ddef -> lines ddef <> [] ->
  heap w !! a = Some dd -> lines dd <> [] -> writer dd <> NilWriter ->
  exists w1,
    AutoFlush (Some a) flush w = Ok (tt, w1) /\
    heap w1 !! a = Some (set_lines (set_autoFlush dd flush) []) /\
    heap w1 !! def = Some ddef /\
    out w1 = out w ++ [(writer dd, block (linePrefix dd) (lines dd))].
Proof.
  intros Hd Hne Hdef Hl H Hla Hw. unfold AutoFlush.
  rewrite (bind_Ok _ _ _ _ _ (modify_Some _ _ _ _ H)).
  unfold getDef. unfold bind at 1. cbn [putInstance defDabugger]. rewrite Hd.
  fold (putInstance a (set_autoFlush dd flush) w).
  assert (H1 : heap (putInstance a (set_autoFlush dd flush) w) !! def = Some ddef)
    by (rewrite lookup_putInstance_ne by exact Hne; exact Hdef).
  assert (H2 : heap (putInstance a (set_autoFlush dd flush) w) !! a
               = Some (set_autoFlush dd flush))
    by (apply (lookup_putInstance _ _ dd), H).
  rewrite (bind_Ok _ _ _ _ _ (load_Some _ _ _ H1)).
  replace (0 <? Z.of_nat (length (lines ddef))) with true
    by (symmetry; apply Z.ltb_lt; destruct (lines ddef); [congruence | simpl; lia]).
  rewrite (Flush_pending _ _ _ H2 Hla Hw). eexists. split; [reflexivity|].
  unfold putInstance, written; simpl. rewrite list_insert_insert_eq.
  split; [apply list_lookup_insert_eq; eapply lookup_lt_Some, H|].
  split; [rewrite list_lookup_insert_ne by exact Hne; exact Hdef | reflexivity].
Qed.

Lemma AutoFlush_follows_default_buffer_witness :
  exists w1,
    AutoFlush (Some 2%nat) false
      (mkWorld [zeroDabugger;
                mkDabugger [mkLine "m" (mkSource "a.go" "f" 3) "a.go:3 "] [] Stdout "" false 5;
                mkDabugger [mkLine "n" (mkSource "b.go" "g" 4) "b.go:4 "] [] (Sink 1) "" false 4]
               (Some 1%nat) []) = Ok (tt, w1) /\
    heap w1 !! 2%nat = Some (mkDabugger [] [] (Sink 1) "" false 4) /\
    out w1 = [(Sink 1, "-----" +:+ nl +:+ "b.go:4 - n" +:+ nl +:+ "=====" +:+ nl)].
Proof.
  destruct (AutoFlush_follows_default_buffer
              (mkWorld [zeroDabugger;
                        mkDabugger [mkLine "m" (mkSource "a.go" "f" 3) "a.go:3 "] []
                                   Stdout "" false 5;
                        mkDabugger [mkLine "n" (mkSource "b.go" "g" 4) "b.go:4 "] []
                                   (Sink 1) "" false 4] (Some 1%nat) [])
              2%nat 1%nat _ _ false eq_refl ltac:(discriminate) eq_refl
              ltac:(discriminate) eq_refl ltac:(discriminate) ltac:(discriminate))
    as [w1 [E [Ha [_ Ho]]]].
  exists w1. split; [exact E|]. split; [exact Ha | exact Ho].
Defined.

(** ** No call loses a pending line *)

(** X21: after a method call that returns, the lines that were pending on
    its receiver are either all still pending, in their order and before
    any new one, or the buffer is empty and the call made exactly one write,
    the block of all of them, to the receiver's writer. *)
Theorem pending_lines_kept_or_written (w w' : World) (b : nat) (m : method) :
  invoke (Some b) m w = Ok (tt, w') ->
  exists dd dd',
    heap w !! b = Some dd /\ heap w' !! b = Some dd' /\
    ((exists ls, lines dd' = lines dd ++ ls) \/
     (lines dd <> [] /\ lines dd' = [] /\
      out w' = out w ++ [(writer dd, block (linePrefix dd) (lines dd))])).
Proof.
  intros R.
  destruct (invoke_shape _ _ _ _ R) as [dd [dd' [news [H [-> [_ [_ Hk]]]]]]].
  exists dd, dd'. split; [exact H|]. simpl.
  split; [apply list_lookup_insert_eq; eapply lookup_lt_Some, H|].
  destruct Hk as [Hk|[Hne [Hl ->]]]; [left; exact Hk | right; auto].
Qed.

Lemma pending_lines_kept_or_written_witness :
  exists w1,
    invoke (Some 0%nat) (MAutoFlush true)
      (mkWorld [mkDabugger [mkLine "m" (mkSource "a.go" "f" 3) "a.go:3 "] [] (Sink 1) "" false 5]
               (Some 0%nat) []) = Ok (tt, w1) /\
    heap w1 !! 0%nat = Some (mkDabugger [] [] (Sink 1) "" true 5) /\
    out w1 = [(Sink 1, "-----" +:+ nl +:+ "a.go:3 - m" +:+ nl +:+ "=====" +:+ nl)].
Proof.
  eexists. split; [vm_compute; reflexivity|].
  match goal with
  | |- heap ?w1 !! _ = _ /\ _ =>
      destruct (pending_lines_kept_or_written
                  (mkWorld [mkDabugger [mkLine "m" (mkSource "a.go" "f" 3) "a.go:3 "] []
                                       (Sink 1) "" false 5] (Some 0%nat) [])
                  w1 0%nat (MAutoFlush true) eq_refl) as [dd [dd' [H [H' _]]]]
  end.
  split; reflexivity.
Defined.

(** ** A nil writer *)

(** X22: Writer accepts a nil writer without complaint; the panic comes with
    the next write.  In auto-flush mode that is the next line; in buffered
    mode lines are still accepted and the panic comes with the Flush that
    finds lines pending, while a Flush with nothing pending returns. *)
Theorem nil_writer_panics_at_write (w : World) (a : nat) (dd : Dabugger) (l : line) :
  heap w !! a = Some dd ->
  exists w1,
    Writer (Some a) NilWriter w = Ok (tt, w1) /\
    (autoFlush dd = true -> appendLine (Some a) l w1 = Panic nilDeref) /\
    (autoFlush dd = false ->
     (appendLine (Some a) l ;; Flush (Some a)) w1 = Panic nilDeref) /\
    (lines dd = [] -> Flush (Some a) w1 = Ok (tt, w1)).
Proof.
  intros H. unfold Writer. rewrite (modify_Some _ _ _ _ H). eexists. split; [reflexivity|].
  assert (H1 : heap (putInstance a (set_writer dd NilWriter) w) !! a
               = Some (set_writer dd NilWriter))
    by (apply (lookup_putInstance _ _ dd), H).
  split; [|split].
  - intros Hb. apply (appendLine_nil_writer _ _ _ l H1 Hb eq_refl).
  - intros Hb. rewrite (bind_Ok _ _ _ _ _ (appendLine_buffered _ _ _ l H1 Hb)).
    eapply Flush_nil_writer.
    + apply (lookup_putInstance _ _ (set_writer dd NilWriter)), H1.
    + simpl. destruct (lines dd); discriminate.
    + reflexivity.
  - intros Hl. apply (Flush_empty _ _ _ H1). exact Hl.
Qed.

Lemma nil_writer_panics_at_write_witness :
  (Writer (Some 1%nat) NilWriter ;;
   appendLine (Some 1%nat) (mkLine "m" (mkSource "a.go" "f" 3) "")) readyWorld
  = Panic nilDeref.
Proof.
  destruct (nil_writer_panics_at_write readyWorld 1%nat _
              (mkLine "m" (mkSource "a.go" "f" 3) "") eq_refl)
    as [w1 [E [Hauto _]]].
  rewrite (bind_Ok _ _ _ _ _ E). apply Hauto. reflexivity.
Defined.

(** ** Two things the rendering does not do *)

(** X23: keys and values go into the prefix as they are, without quoting or
    escaping, so the rendered context list does not determine the stack: one
    entry whose value holds ", k2:v2" renders like two entries. *)
Theorem genPrefix_no_escaping (w1 w2 : World) (a1 a2 : nat) (d1 d2 : Dabugger)
    (l : line) (k v k2 v2 : string) :
  heap w1 !! a1 = Some d1 -> heap w2 !! a2 = Some d2 ->
  linePrefix d1 = linePrefix d2 ->
  contexts d1 = [mkContext k (v +:+ ", " +:+ k2 +:+ ":" +:+ v2)] ->
  contexts d2 = [mkContext k v; mkContext k2 v2] ->
  exists p,
    genPrefix (Some a1) l w1 = Ok (mkLine (msg l) (src l) p, w1) /\
    genPrefix (Some a2) l w2 = Ok (mkLine (msg l) (src l) p, w2).
Proof.
  intros H1 H2 HP C1 C2. eexists.
  rewrite (genPrefix_Some _ _ _ l H1), (genPrefix_Some _ _ _ l H2).
  split; [reflexivity|]. do 3 f_equal.
  unfold renderPrefix. rewrite HP, C1, C2. do 4 f_equal.
  unfold contextString, kvString; simpl.
  repeat (rewrite ?append_assoc; simpl). reflexivity.
Qed.

Lemma genPrefix_no_escaping_witness :
  genPrefix (Some 0%nat) (mkLine "" (mkSource "a.go" "f" 3) "")
    (mkWorld [mkDabugger [] [mkContext "user" "bob, role:admin"] Stdout "" true 4]
             (Some 0%nat) [])
  = Ok (mkLine "" (mkSource "a.go" "f" 3) "a.go:3 (user:bob, role:admin) ",
        mkWorld [mkDabugger [] [mkContext "user" "bob, role:admin"] Stdout "" true 4]
                (Some 0%nat) []).
Proof.
  destruct (genPrefix_no_escaping
              (mkWorld [mkDabugger [] [mkContext "user" "bob, role:admin"] Stdout "" true 4]
                       (Some 0%nat) [])
              (mkWorld [mkDabugger [] [mkContext "user" "bob"; mkContext "role" "admin"]
                                   Stdout "" true 4] (Some 0%nat) [])
              0%nat 0%nat _ _ (mkLine "" (mkSource "a.go" "f" 3) "")
              "user" "bob" "role" "admin" eq_refl eq_refl eq_refl eq_refl eq_refl)
    as [p [E1 E2]].
  rewrite E1. vm_compute in E2. injection E2 as <-. reflexivity.
Defined.

(** X24: the width Flush pads to is a number of bytes, the padding is
    counted in runes.  With a single line pending there is nothing to align,
    yet its prefix is followed by as many spaces as it has bytes beyond its
    runes: none for an ASCII prefix, some otherwise. *)
Theorem Flush_single_line (w : World) (a : nat) (dd : Dabugger) (l : line) :
  heap w !! a = Some dd -> lines dd = [l] -> writer dd <> NilWriter ->
  Flush (Some a) w
  = Ok (tt, putInstance a (set_lines dd [])
              (written (writer dd)
                 (linePrefix dd +:+ "-----" +:+ nl +:+
                  prefix l +:+
                  spaces (String.length (prefix l) - RuneCountInString (prefix l)) +:+
                  suffixOf (msg l) +:+ nl +:+
                  linePrefix dd +:+ "=====" +:+ nl) w)) /\
  (isASCII (prefix l) ->
   spaces (String.length (prefix l) - RuneCountInString (prefix l)) = "").
Proof.
  intros H Hl Hw. split.
  - assert (Hne : lines dd <> []) by (rewrite Hl; discriminate).
    rewrite (Flush_pending _ _ _ H Hne Hw).
    rewrite Hl. unfold block, segments, maxWidth, renderLine, padRight.
    cbn [map max_list app flatten foldr]. rewrite Nat.max_0_r.
    do 4 f_equal. rewrite !append_assoc, append_nil_r. reflexivity.
  - intros Ha. rewrite (RuneCount_ascii _ Ha), Nat.sub_diag. reflexivity.
Qed.

Lemma Flush_single_line_witness :
  Flush (Some 0%nat)
    (mkWorld [mkDabugger [mkLine "m" (mkSource "a.go" "f" 3)
                            (String (ascii_of_nat 195) (String (ascii_of_nat 169) " a.go:3 "))]
                         [] Stdout "" false 4] (Some 0%nat) [])
  = Ok (tt, mkWorld [mkDabugger [] [] Stdout "" false 4] (Some 0%nat)
              [(Stdout, "-----" +:+ nl +:+
                        String (ascii_of_nat 195) (String (ascii_of_nat 169) " a.go:3  - m") +:+ nl
                        +:+ "=====" +:+ nl)]).
Proof.
  destruct (Flush_single_line
              (mkWorld [mkDabugger [mkLine "m" (mkSource "a.go" "f" 3)
                                      (String (ascii_of_nat 195)
                                         (String (ascii_of_nat 169) " a.go:3 "))]
                                   [] Stdout "" false 4] (Some 0%nat) [])
              0%nat _ _ eq_refl eq_refl ltac:(discriminate)) as [E _].
  rewrite E. reflexivity.
Defined.

(** ** Where the earlier copies fall short *)

(** C6 fails on the first copy of the package (dabug.go): the body of
    logger.RemoveContext is empty, so the call leaves the stack as it is and
    an entry pushed under a key is still there after that key was
    removed. *)
Theorem logger_RemoveContext_removes_nothing (l : Earlier.logger) (k v : string) :
  Earlier.contexts (Earlier.RemoveContext l k) = Earlier.contexts l /\
  In (mkContext k v)
     (Earlier.contexts (Earlier.RemoveContext (Earlier.AddContext l k v) k)).
Proof.
  split; [reflexivity|].
  unfold Earlier.RemoveContext, Earlier.AddContext; simpl.
  apply in_or_app. right. now left.
Qed.

(** C9 fails on the second copy of the package (part_000): its New switches
    auto-flush on for every instance it makes and copies the prefix of the
    default instance whenever the package variable is not nil.  The variable
    is never nil, so the prefix "DABUG: " written in New is never used:
    after init the default instance has an empty prefix, and so has every
    instance made from it. *)
Theorem second_copy_New_autoFlush_on :
  (exists w0,
      Earlier.init startWorld = Ok (tt, w0) /\ defDabugger w0 = Some 1%nat /\
      heap w0 !! 1%nat = Some (mkDabugger [] [] Stdout "" true 5)) /\
  (forall w a dd,
      defDabugger w = Some a -> heap w !! a = Some dd ->
      Earlier.New w
      = Ok (Some (length (heap w)),
            mkWorld (heap w ++ [mkDabugger [] [] Stdout (linePrefix dd) true 4])
                    (defDabugger w) (out w))).
Proof.
  split.
  - eexists. split; [reflexivity|]. split; reflexivity.
  - intros w a dd Hd H. unfold Earlier.New, bind, getDef, load, ret, alloc.
    rewrite Hd, H. cbn [heap defDabugger out]. now rewrite Hd.
Qed.

Lemma second_copy_New_autoFlush_on_witness :
  exists w1,
    (Earlier.init ;; Earlier.New) startWorld = Ok (Some 2%nat, w1) /\
    heap w1 !! 1%nat = Some (mkDabugger [] [] Stdout "" true 5) /\
    heap w1 !! 2%nat = Some (mkDabugger [] [] Stdout "" true 4).
Proof.
  destruct second_copy_New_autoFlush_on as [_ Hnew].
  eexists. split.
  - change ((Earlier.init ;; Earlier.New) startWorld)
      with (Earlier.New (mkWorld [zeroDabugger; mkDabugger [] [] Stdout "" true 5]
                                 (Some 1%nat) [])).
    rewrite (Hnew (mkWorld [zeroDabugger; mkDabugger [] [] Stdout "" true 5] (Some 1%nat) [])
                  1%nat _ eq_refl eq_refl).
    reflexivity.
  - split; reflexivity.
Defined.
